(** * Video Clip Maker: a shallow embedding of [video-clip-maker.py]

    The script drives external tools ([yt-dlp], [ffprobe], [ffmpeg],
    Whisper) and the file system.  The embedding keeps the control flow
    of every function of the script and replaces what lies outside of
    it by an environment of oracles ([Env]); the file system and the
    list of commands that were run are threaded explicitly ([Sys])
    through a state and exception monad ([Py]).

    Conventions:
    - numbers that carry seconds (Python floats and ints) are
      rationals ([Q]); results are compared with [==];
    - paths are strings, joined with ["/"] and not normalised;
      directories are not tracked, so [os.makedirs] and [Path.mkdir]
      have no effect here;
    - [print] is left out;
    - an external tool is a function of its command line; [yt-dlp]
      and [ffmpeg], which [check_dependencies] has found, complete or
      raise [CalledProcessError] when run with [check=True]; [ffmpeg]
      writes to its output file and nowhere else. *)

From Stdlib Require Import Ascii QArith Qround Lqa.
From stdpp Require Import gmap strings list fin_maps pretty.

Local Open Scope Z_scope.

(** ** Values *)

(** One element of an argument vector.  [str(x)] of a number that
    carries seconds is kept as the number. *)
Inductive arg :=
| Str (s : string)
| Num (x : Q).

Abbreviation Cmd := (list arg).

(** Python exceptions that the script can meet; [Error] stands for any
    other subclass of [Exception]. *)
Inductive exn :=
| CalledProcessError (stderr : string)
| FileNotFoundError (msg : string)
| Error (msg : string)
| SystemExit (code : Z).

(** A transcription segment: [segment['start']], [segment['end']],
    [segment['text']]. *)
Record segment := Segment {
  seg_start : Q;
  seg_end : Q;
  seg_text : string
}.

(** The [metadata] dictionary of [main]. *)
Record output_files := OutputFiles {
  vertical_clip : string;
  final_clip : string;
  thumbnail : string;
  subtitles : option string
}.

Record metadata := Metadata {
  original_url : string;
  clip_start : Q;
  clip_duration : Q;
  files : output_files;
  timestamp : string;
  quality : string
}.

(** What a file holds. *)
Inductive content :=
| Text (s : string)
| Media (by_cmd : Cmd) (whole : bool)
| Blob
| Json (m : metadata).

(** ** The environment *)

(** Exit of an external process run with [check=True]. *)
Inductive exit :=
| Exit0
| ExitNonZero (stderr : string).

(** [ffprobe] seen through the parse that follows it: the parsed
    standard output, output that the parse rejects, or a process that
    could not be run or exited with an error. *)
Inductive probe (T : Type) :=
| ProbeValue (v : T)
| ProbeUnparsable
| ProbeFailed.
Arguments ProbeValue {T} v.
Arguments ProbeUnparsable {T}.
Arguments ProbeFailed {T}.

Record Env := {
  HAS_OPENCV : bool;
  HAS_WHISPER : bool;
  (** [datetime.now().strftime('%Y%m%d_%H%M%S')] *)
  now : string;
  (** [tempfile.gettempdir()] and the random part of a temporary name *)
  gettempdir : string;
  tmp_token : string -> string;
  (** [which cmd] exits with 0 *)
  which : string -> bool;
  (** [yt-dlp]: exit, and the names it wrote in the output directory *)
  yt_dlp : Cmd -> exit;
  yt_dlp_files : Cmd -> list string;
  (** [ffprobe] for the duration and for [width,height] *)
  ffprobe_duration : Cmd -> probe Q;
  ffprobe_size : Cmd -> probe (Z * Z);
  (** [ffmpeg]: exit, and whether a failed run leaves a partial output *)
  ffmpeg : Cmd -> exit;
  ffmpeg_partial : Cmd -> bool;
  (** [wave.open] and [readframes] succeed on the file *)
  wave_readable : string -> bool;
  (** Whisper: [None] when loading the model or transcribing raises *)
  transcribe : string -> string -> option (list segment)
}.

(** ** The state *)

Record Sys := {
  fs : gmap string content;
  ran : list (Cmd * bool)
}.

Definition set_fs (f : gmap string content -> gmap string content) (s : Sys) : Sys :=
  {| fs := f (fs s); ran := ran s |}.

Definition log_run (c : Cmd) (ok : bool) (s : Sys) : Sys :=
  {| fs := fs s; ran := ran s ++ [(c, ok)] |}.

(** ** A state and exception monad *)

Inductive outcome (T : Type) :=
| Returned (v : T)
| Raised (e : exn).
Arguments Returned {T} v.
Arguments Raised {T} e.

Definition Py (T : Type) : Type := Sys -> outcome T * Sys.

Definition ret {T} (v : T) : Py T := fun s => (Returned v, s).

Definition raise {T} (e : exn) : Py T := fun s => (Raised e, s).

Definition bind {T U} (m : Py T) (k : T -> Py U) : Py U :=
  fun s =>
    match m s with
    | (Returned v, s') => k v s'
    | (Raised e, s') => (Raised e, s')
    end.

(** [try: m  except <handled>: h]; [handler e = None] lets [e] through. *)
Definition try_except {T} (m : Py T) (handler : exn -> option (Py T)) : Py T :=
  fun s =>
    match m s with
    | (Returned v, s') => (Returned v, s')
    | (Raised e, s') =>
        match handler e with
        | Some h => h s'
        | None => (Raised e, s')
        end
    end.

Definition get : Py Sys := fun s => (Returned s, s).

Definition modify (f : Sys -> Sys) : Py unit := fun s => (Returned tt, f s).

Declare Scope py_scope.
Delimit Scope py_scope with py.
Notation "x ← y ; z" := (bind y (λ x, z))
  (at level 20, y at level 100, z at level 200, only parsing) : py_scope.
Notation "' x ← y ; z" := (bind y (λ x, z))
  (at level 20, x pattern, y at level 100, z at level 200, only parsing) : py_scope.
Notation "x ;; z" := (bind x (λ _, z))
  (at level 100, z at level 200, only parsing, right associativity) : py_scope.
Local Open Scope py_scope.

(** Handlers of the script. *)
Definition except_CalledProcessError {T} (h : string -> Py T) (e : exn) : option (Py T) :=
  match e with
  | CalledProcessError err => Some (h err)
  | _ => None
  end.

(** A bare [except:] catches everything, [SystemExit] included. *)
Definition except_all {T} (h : Py T) (e : exn) : option (Py T) := Some h.

(** [except Exception] lets [SystemExit] through. *)
Definition except_Exception {T} (h : Py T) (e : exn) : option (Py T) :=
  match e with
  | SystemExit _ => None
  | _ => Some h
  end.

(** ** File system and processes *)

Definition path_exists (p : string) : Py bool :=
  s ← get; ret (bool_decide (is_Some (fs s !! p))).

(** [os.unlink]: the file must exist. *)
Definition unlink (p : string) : Py unit :=
  s ← get;
  match fs s !! p with
  | Some _ => modify (set_fs (delete p))
  | None => raise (FileNotFoundError p)
  end.

Definition write_file (p : string) (c : content) : Py unit :=
  modify (set_fs (<[p := c]>)).

(** [os.path.join] and [Path / name] on a directory and a plain name. *)
Definition path_join (dir name : string) : string := dir +:+ "/" +:+ name.

(** [tempfile.NamedTemporaryFile(suffix=.., delete=False, dir=..)]: an
    empty file named [tmp<random><suffix>] in [dir]. *)
Definition NamedTemporaryFile (E : Env) (dir suffix : string) : Py string :=
  let name := path_join dir ("tmp" +:+ tmp_token E suffix +:+ suffix) in
  write_file name (Text "");;
  ret name.

(** The output of an [ffmpeg] command line is its last argument. *)
Definition output_of (c : Cmd) : string :=
  match last c with
  | Some (Str p) => p
  | _ => ""
  end.

(** [subprocess.run(cmd, check=True)] for [ffmpeg]: a run that
    completes writes its output; one that fails may leave a partial
    output behind; nothing else is touched. *)
Definition leftover (E : Env) (c : Cmd) : Py unit :=
  if ffmpeg_partial E c then write_file (output_of c) (Media c false) else ret tt.

Definition run_ffmpeg (E : Env) (c : Cmd) : Py unit :=
  match ffmpeg E c with
  | Exit0 =>
      modify (log_run c true);;
      write_file (output_of c) (Media c true)
  | ExitNonZero err =>
      modify (log_run c false);;
      leftover E c;;
      raise (CalledProcessError err)
  end.

(** ** DurationProbe: [get_video_duration] *)

Definition duration_cmd (video_path : string) : Cmd :=
  [Str "ffprobe"; Str "-v"; Str "error"; Str "-show_entries"; Str "format=duration";
   Str "-of"; Str "default=noprint_wrappers=1:nokey=1"; Str video_path].

Definition get_video_duration (E : Env) (video_path : string) : Py Q :=
  match ffprobe_duration E (duration_cmd video_path) with
  | ProbeValue d => modify (log_run (duration_cmd video_path) true);; ret d
  | _ => modify (log_run (duration_cmd video_path) false);; ret 300%Q
  end.

(** ** HighlightSelector *)

(** Python's [max(0, x)]: [x] only when [x > 0]. *)
Definition max0 (x : Q) : Q := if Qle_bool x 0 then 0%Q else x.

Definition midpoint (total_duration duration : Q) : Q :=
  max0 ((total_duration - duration) / 2)%Q.

Definition extract_audio_cmd (video_path audio_path : string) : Cmd :=
  [Str "ffmpeg"; Str "-i"; Str video_path; Str "-vn"; Str "-acodec"; Str "pcm_s16le";
   Str "-ar"; Str "16000"; Str "-ac"; Str "1"; Str "-y"; Str audio_path].

(** [wave.open(audio_path)] and [readframes]. *)
Definition read_wave (E : Env) (audio_path : string) : Py unit :=
  if wave_readable E audio_path then ret tt
  else raise (Error "wave").

Definition detect_audio_highlights (E : Env) (video_path : string) (target_duration : Q)
  : Py (Q * Q) :=
  audio_path ← NamedTemporaryFile E (gettempdir E) ".wav";
  try_except
    (run_ffmpeg E (extract_audio_cmd video_path audio_path);;
     read_wave E audio_path;;
     unlink audio_path;;
     total_duration ← get_video_duration E video_path;
     ret (midpoint total_duration target_duration, target_duration))
    (except_all
       (total_duration ← get_video_duration E video_path;
        ret (midpoint total_duration target_duration, target_duration))).

Definition detect_face_segments (E : Env) (video_path : string) (target_duration : Q)
  : Py (Q * Q) :=
  total_duration ← get_video_duration E video_path;
  ret (midpoint total_duration target_duration, target_duration).

Definition detect_highlights (E : Env) (video_path : string) (duration : Q) (method : string)
  : Py (Q * Q) :=
  if negb (HAS_OPENCV E) then
    total ← get_video_duration E video_path;
    ret (total, duration)
  else
    total_duration ← get_video_duration E video_path;
    if String.eqb method "audio" then detect_audio_highlights E video_path duration
    else if String.eqb method "face" then detect_face_segments E video_path duration
    else ret (midpoint total_duration duration, duration).

(** ** FrameTransformer: [create_vertical_clip] *)

Definition size_cmd (input_path : string) : Cmd :=
  [Str "ffprobe"; Str "-v"; Str "error"; Str "-select_streams"; Str "v:0";
   Str "-show_entries"; Str "stream=width,height"; Str "-of"; Str "csv=p=0"; Str input_path].

Definition target_width : Z := 1080.
Definition target_height : Z := 1920.

Definition scale_filter : string := "scale=-2:" +:+ pretty target_height.
Definition crop_filter : string :=
  "crop=" +:+ pretty target_width +:+ ":" +:+ pretty target_height.

Definition clip_cmd (input_path output_path : string) (start_time duration : Q) : Cmd :=
  [Str "ffmpeg"; Str "-ss"; Num start_time; Str "-i"; Str input_path; Str "-t"; Num duration;
   Str "-vf"; Str (scale_filter +:+ "," +:+ crop_filter);
   Str "-c:v"; Str "libx264"; Str "-preset"; Str "medium"; Str "-crf"; Str "23";
   Str "-c:a"; Str "aac"; Str "-b:a"; Str "128k"; Str "-y"; Str output_path].

Definition create_vertical_clip (E : Env) (input_path output_path : string)
    (start_time duration : Q) : Py bool :=
  '(width, height) ←
    match ffprobe_size E (size_cmd input_path) with
    | ProbeValue wh => modify (log_run (size_cmd input_path) true);; ret wh
    | _ => modify (log_run (size_cmd input_path) false);; ret (1920, 1080)
    end;
  try_except
    (run_ffmpeg E (clip_cmd input_path output_path start_time duration);;
     ret true)
    (except_CalledProcessError (λ _, ret false)).

(** ** TranscriptGenerator: [generate_subtitles] and [format_time] *)

Definition LF : string := String "010"%char "".

(** [f"{n:02d}"] and wider: zero padding to [width] characters, the
    sign counted in. *)
Fixpoint zeros (n : nat) : string :=
  match n with
  | O => ""
  | S n => "0" +:+ zeros n
  end.

Definition pad (width : nat) (s : string) : string :=
  zeros (width - String.length s) +:+ s.

Definition zfill (width : nat) (n : Z) : string :=
  if n <? 0 then "-" +:+ pad (width - 1) (pretty (- n)) else pad width (pretty n).

(** Rounding to the nearest integer, ties to even, as [format] does
    on the digits it drops. *)
Definition round_half_even (x : Q) : Z :=
  let f := Qfloor x in
  let r := (x - inject_Z f)%Q in
  if Qle_bool r (1 # 2) then
    if Qeq_bool r (1 # 2) then (if Z.even f then f else f + 1) else f
  else f + 1.

(** [f"{secs:06.3f}"] *)
Definition fixed3 (secs : Q) : string :=
  let millis := round_half_even (secs * 1000)%Q in
  let body := pad 2 (pretty (Z.abs millis / 1000)) +:+ "." +:+
              pad 3 (pretty (Z.abs millis mod 1000)) in
  if millis <? 0 then "-" +:+ body else body.

(** [s.replace(old, new)] for a one-character [old]. *)
Fixpoint replace (old : ascii) (new : string) (s : string) : string :=
  match s with
  | EmptyString => ""
  | String c s' =>
      if Ascii.eqb c old then new +:+ replace old new s'
      else String c (replace old new s')
  end.

(** [x // y] and [x % y] on numbers. *)
Definition floordiv (x y : Q) : Z := Qfloor (x / y).
Definition pymod (x y : Q) : Q := (x - inject_Z (floordiv x y) * y)%Q.

Definition format_time (seconds : Q) : string :=
  let hours := floordiv seconds 3600 in
  let minutes := floordiv (pymod seconds 3600) 60 in
  let secs := pymod seconds 60 in
  replace "."%char ","
    (zfill 2 hours +:+ ":" +:+ zfill 2 minutes +:+ ":" +:+ fixed3 secs).

(** [str.strip()] on ASCII white space. *)
Definition is_space (c : ascii) : bool :=
  match c with
  | "009" | "010" | "011" | "012" | "013"
  | "028" | "029" | "030" | "031" | " " => true
  | _ => false
  end%char.

Fixpoint lstrip (s : string) : string :=
  match s with
  | EmptyString => ""
  | String c s' => if is_space c then lstrip s' else s
  end.

Definition strip (s : string) : string :=
  String.rev (lstrip (String.rev (lstrip s))).

(** One block of the SRT file: what the three [f.write] of one loop
    turn write. *)
Definition srt_block (i : nat) (seg : segment) : string :=
  let start_str := format_time (seg_start seg) in
  let end_str := format_time (seg_end seg) in
  pretty (i + 1)%nat +:+ LF +:+
  start_str +:+ " --> " +:+ end_str +:+ LF +:+
  strip (seg_text seg) +:+ LF +:+ LF.

(** [f.write(..)] on a file open for writing. *)
Definition append_file (p : string) (text : string) : Py unit :=
  s ← get;
  match fs s !! p with
  | Some (Text old) => write_file p (Text (old +:+ text))
  | _ => write_file p (Text text)
  end.

(** [for i, segment in enumerate(result['segments'])], from index [i]. *)
Fixpoint write_segments (output_srt : string) (i : nat) (segments : list segment)
  : Py unit :=
  match segments with
  | [] => ret tt
  | seg :: rest =>
      append_file output_srt (srt_block i seg);;
      write_segments output_srt (S i) rest
  end.

(** [whisper.load_model("small")] then [model.transcribe(..)]. *)
Definition whisper_transcribe (E : Env) (video_path language : string)
  : Py (list segment) :=
  match transcribe E video_path language with
  | Some segments => ret segments
  | None => raise (Error "transcription failed")
  end.

Definition generate_subtitles (E : Env) (video_path output_srt language : string)
  : Py bool :=
  if negb (HAS_WHISPER E) then ret false
  else
    try_except
      (segments ← whisper_transcribe E video_path language;
       write_file output_srt (Text "");;
       write_segments output_srt 0 segments;;
       ret true)
      (except_Exception (ret false)).

(** ** CaptionBurner: [burn_subtitles] *)

(** [shutil.copy2(src, dst)] *)
Definition copy2 (src dst : string) : Py unit :=
  s ← get;
  match fs s !! src with
  | Some c => write_file dst c
  | None => raise (FileNotFoundError src)
  end.

Definition encode_args (output_path : string) : Cmd :=
  [Str "-c:v"; Str "libx264"; Str "-preset"; Str "medium"; Str "-crf"; Str "23";
   Str "-c:a"; Str "aac"; Str "-b:a"; Str "128k"; Str "-y"; Str output_path].

Definition style : string :=
  "Fontname=Arial,Fontsize=24," +:+
  "PrimaryColour=&H00FFFFFF," +:+
  "OutlineColour=&H00000000," +:+
  "BackColour=&H80000000," +:+
  "BorderStyle=3,Outline=1,Shadow=1,MarginV=20".

Definition escape_path (tmp_srt_path : string) : string :=
  replace ":"%char "\:" (replace "\"%char "\\" tmp_srt_path).

(** Attempt 1: plain subtitles. *)
Definition cmd1 (video_path escaped_path output_path : string) : Cmd :=
  [Str "ffmpeg"; Str "-i"; Str video_path; Str "-vf"; Str ("subtitles=" +:+ escaped_path)]
  ++ encode_args output_path.

(** Attempt 2: styled subtitles with [force_style]. *)
Definition cmd2 (video_path escaped_path output_path : string) : Cmd :=
  [Str "ffmpeg"; Str "-i"; Str video_path;
   Str "-vf"; Str ("subtitles=" +:+ escaped_path +:+ ":force_style='" +:+ style +:+ "'")]
  ++ encode_args output_path.

(** Attempt 3: re-encode without subtitles. *)
Definition cmd3 (video_path output_path : string) : Cmd :=
  [Str "ffmpeg"; Str "-i"; Str video_path] ++ encode_args output_path.

(** A [try] whose body ends in [return True] and whose handler falls
    through to the next statement: [Some b] is a [return b], [None]
    falls through. *)
Definition attempt (E : Env) (c : Cmd) (tmp_srt_path : string) : Py (option bool) :=
  try_except
    (run_ffmpeg E c;;
     unlink tmp_srt_path;;
     ret (Some true))
    (except_CalledProcessError (λ _, ret None)).

Definition burn_subtitles (E : Env) (video_path srt_path output_path : string)
  : Py bool :=
  present ← path_exists srt_path;
  if negb present then ret false
  else
    tmp_srt_path ← NamedTemporaryFile E "/tmp" ".srt";
    copy2 srt_path tmp_srt_path;;
    let escaped_path := escape_path tmp_srt_path in
    r1 ← attempt E (cmd1 video_path escaped_path output_path) tmp_srt_path;
    match r1 with
    | Some b => ret b
    | None =>
        r2 ← attempt E (cmd2 video_path escaped_path output_path) tmp_srt_path;
        match r2 with
        | Some b => ret b
        | None =>
            try_except
              (run_ffmpeg E (cmd3 video_path output_path);;
               unlink tmp_srt_path;;
               ret true)
              (except_CalledProcessError (λ _,
                 try_except (unlink tmp_srt_path)
                   (λ e, match e with
                         | FileNotFoundError _ => Some (ret tt)
                         | _ => None
                         end);;
                 ret false))
        end
    end.

(** ** ThumbnailExtractor: [generate_thumbnail] *)

Definition thumb_cmd (video_path output_image : string) (time_sec : Q) : Cmd :=
  [Str "ffmpeg"; Str "-i"; Str video_path; Str "-ss"; Num time_sec; Str "-vframes"; Str "1";
   Str "-vf"; Str "scale=1080:1920:force_original_aspect_ratio=increase,crop=1080:1920";
   Str "-y"; Str output_image].

Definition thumb_cmd2 (video_path output_image : string) : Cmd :=
  [Str "ffmpeg"; Str "-i"; Str video_path; Str "-vf"; Str "select=eq(n\,0)";
   Str "-vframes"; Str "1"; Str "-y"; Str output_image].

Definition generate_thumbnail (E : Env) (video_path output_image : string) (time_sec : Q)
  : Py bool :=
  try_except
    (run_ffmpeg E (thumb_cmd video_path output_image time_sec);;
     ret true)
    (except_CalledProcessError (λ _,
       try_except
         (run_ffmpeg E (thumb_cmd2 video_path output_image);;
          ret true)
         (except_all (ret false)))).

(** ** [check_dependencies] *)

Definition run_which (E : Env) (cmd : string) : Py unit :=
  if which E cmd then modify (log_run [Str "which"; Str cmd] true)
  else modify (log_run [Str "which"; Str cmd] false);; raise (CalledProcessError "").

(** The loop over [required], [missing] being the list built so far. *)
Fixpoint find_missing (E : Env) (required missing : list string) : Py (list string) :=
  match required with
  | [] => ret missing
  | cmd :: rest =>
      missing' ← try_except (run_which E cmd;; ret missing)
                   (except_CalledProcessError (λ _, ret (missing ++ [cmd])));
      find_missing E rest missing'
  end.

Definition check_dependencies (E : Env) : Py bool :=
  missing ← find_missing E ["yt-dlp"; "ffmpeg"] [];
  match missing with
  | [] => ret true
  | _ => ret false
  end.

(** ** Acquisition: [download_video] *)

(** [s[:-1]] *)
Fixpoint drop_last (s : string) : string :=
  match s with
  | EmptyString => ""
  | String c EmptyString => ""
  | String c s' => String c (drop_last s')
  end.

(** [s] without its prefix [p], when it starts with it. *)
Fixpoint strip_prefix (p s : string) : option string :=
  match p, s with
  | EmptyString, _ => Some s
  | String a p', String b s' => if Ascii.eqb a b then strip_prefix p' s' else None
  | String _ _, EmptyString => None
  end.

Fixpoint has_slash (s : string) : bool :=
  match s with
  | EmptyString => false
  | String c s' => Ascii.eqb c "/"%char || has_slash s'
  end.

(** [os.listdir(dir)]: the names of the files directly in [dir]. *)
Definition listdir (dir : string) : Py (list string) :=
  s ← get;
  ret (omap (λ entry : string * content,
         match strip_prefix (dir +:+ "/") (fst entry) with
         | Some name => if has_slash name then None else Some name
         | None => None
         end) (map_to_list (fs s))).

Definition download_cmd (url output_dir quality : string) : Cmd :=
  [Str "yt-dlp"; Str "-f";
   Str ("bestvideo[height<=" +:+ drop_last quality +:+ "]+bestaudio/best[height<=" +:+
      drop_last quality +:+ "]");
   Str "--merge-output-format"; Str "mp4";
   Str "-o"; Str (path_join output_dir "original.%(ext)s"); Str url].

(** [subprocess.run] for [yt-dlp]: a run that completes has written
    the files that the environment names, into [output_dir]. *)
Definition run_yt_dlp (E : Env) (c : Cmd) (output_dir : string) : Py unit :=
  match yt_dlp E c with
  | Exit0 =>
      modify (log_run c true);;
      modify (set_fs (λ m, foldr (λ name, <[path_join output_dir name := Blob]>) m
                             (yt_dlp_files E c)))
  | ExitNonZero err =>
      modify (log_run c false);;
      raise (CalledProcessError err)
  end.

(** The first path of [candidates] that exists. *)
Fixpoint first_existing (candidates : list string) : Py (option string) :=
  match candidates with
  | [] => ret None
  | p :: rest =>
      present ← path_exists p;
      if present then ret (Some p) else first_existing rest
  end.

Definition download_video (E : Env) (url output_dir quality : string)
  : Py (option string) :=
  try_except
    (run_yt_dlp E (download_cmd url output_dir quality) output_dir;;
     found ← first_existing
       (map (λ ext, path_join output_dir ("original" +:+ ext)) [".mp4"; ".mkv"; ".webm"]);
     match found with
     | Some video_path => ret (Some video_path)
     | None =>
         names ← listdir output_dir;
         match filter (λ file, String.prefix "original." file = true) names with
         | file :: _ => ret (Some (path_join output_dir file))
         | [] => raise (FileNotFoundError "Downloaded video file not found")
         end
     end)
    (except_CalledProcessError (λ _, ret None)).

(** ** PipelineOrchestrator: [main] *)

(** The parsed command line. *)
Record Args := {
  url : string;
  duration : Z;
  quality_arg : string;
  output_dir : string;
  highlight_method : string;
  subtitle_lang : string
}.

(** [sys.exit(code)] *)
Definition sys_exit {T} (code : Z) : Py T := raise (SystemExit code).

(** [main], "Generate subtitles": the return value is dropped. *)
Definition subtitle_stage (E : Env) (args : Args) (timestamp vertical_path : string)
  : Py unit :=
  let srt_path := path_join (output_dir args) ("subtitles_" +:+ timestamp +:+ ".srt") in
  if HAS_WHISPER E
  then generate_subtitles E vertical_path srt_path (subtitle_lang args);; ret tt
  else ret tt.

(** [main], "Burn subtitles if available": the value is [final_path]. *)
Definition caption_stage (E : Env) (args : Args) (timestamp vertical_path : string)
  : Py string :=
  let srt_path := path_join (output_dir args) ("subtitles_" +:+ timestamp +:+ ".srt") in
  let final_path := path_join (output_dir args) ("final_" +:+ timestamp +:+ ".mp4") in
  srt_present ← path_exists srt_path;
  final_path ←
    (if srt_present then
       burnt ← burn_subtitles E vertical_path srt_path final_path;
       if negb burnt then ret vertical_path else ret final_path
     else ret vertical_path);
  final_present ← path_exists final_path;
  if negb final_present then ret vertical_path else ret final_path.

(** [main], thumbnail and metadata: the value of [generate_thumbnail]
    is dropped. *)
Definition record_stage (E : Env) (args : Args) (timestamp vertical_path final_path : string)
    (start_time duration : Q) : Py unit :=
  let srt_path := path_join (output_dir args) ("subtitles_" +:+ timestamp +:+ ".srt") in
  let thumbnail_path := path_join (output_dir args) ("thumbnail_" +:+ timestamp +:+ ".png") in
  generate_thumbnail E final_path thumbnail_path 10;;
  srt_present ← path_exists srt_path;
  let metadata :=
    {| original_url := url args;
       clip_start := start_time;
       clip_duration := duration;
       files := {| vertical_clip := vertical_path;
                   final_clip := final_path;
                   thumbnail := thumbnail_path;
                   subtitles := if srt_present then Some srt_path else None |};
       timestamp := timestamp;
       quality := quality_arg args |} in
  let metadata_path := path_join (output_dir args) ("metadata_" +:+ timestamp +:+ ".json") in
  write_file metadata_path (Json metadata).

(** [main] once the vertical clip exists. *)
Definition main_after_clip (E : Env) (args : Args) (timestamp vertical_path : string)
    (start_time duration : Q) : Py unit :=
  subtitle_stage E args timestamp vertical_path;;
  final_path ← caption_stage E args timestamp vertical_path;
  record_stage E args timestamp vertical_path final_path start_time duration.

(** [main] from the download on. *)
Definition main_stages (E : Env) (args : Args) (timestamp : string) : Py unit :=
  video_path ← download_video E (url args) (output_dir args) (quality_arg args);
  match video_path with
  | None => sys_exit 1
  | Some video_path =>
      '(start_time, duration) ←
        detect_highlights E video_path (inject_Z (duration args)) (highlight_method args);
      let vertical_path :=
        path_join (output_dir args) ("vertical_" +:+ timestamp +:+ ".mp4") in
      clipped ← create_vertical_clip E video_path vertical_path start_time duration;
      if negb clipped then sys_exit 1
      else main_after_clip E args timestamp vertical_path start_time duration
  end.

Definition main (E : Env) (args : Args) : Py unit :=
  ready ← check_dependencies E;
  if negb ready then sys_exit 1
  else
    let timestamp := now E in
    main_stages E args timestamp.

(** The exit status of the process: 0 when [main] returns, the code of
    [sys.exit], 1 for an exception that nothing caught. *)
Definition exit_code (r : outcome unit) : Z :=
  match r with
  | Returned _ => 0
  | Raised (SystemExit code) => code
  | Raised _ => 1
  end.

(** ** The encoder's filter graphs

    What follows is not code of the script: it is what the encoder
    does with the graphs the script hands to [-vf], after the
    documentation of the [scale] and [crop] filters of ffmpeg.  A
    graph maps the size of the frames it receives to the size of the
    frames it emits, or fails to configure. *)

Module Filter.

Inductive vfilter :=
| Scale (w h : Z)
| ScaleIncrease (w h : Z)
| Crop (w h : Z).

Definition render_filter (f : vfilter) : string :=
  match f with
  | Scale w h => "scale=" +:+ pretty w +:+ ":" +:+ pretty h
  | ScaleIncrease w h =>
      "scale=" +:+ pretty w +:+ ":" +:+ pretty h +:+
      ":force_original_aspect_ratio=increase"
  | Crop w h => "crop=" +:+ pretty w +:+ ":" +:+ pretty h
  end.

Fixpoint render_graph (g : list vfilter) : string :=
  match g with
  | [] => ""
  | [f] => render_filter f
  | f :: g' => render_filter f +:+ "," +:+ render_graph g'
  end.

(** [a * b / c] rounded to the nearest integer, for positive operands. *)
Definition rescale (a b c : Z) : Z := (a * b + c / 2) / c.

(** [scale=w:h]: a dimension of 0 is that of the input; [-n] keeps the
    aspect ratio from the other dimension and makes the result a
    multiple of [n]; two negative dimensions give the input size.
    [force_original_aspect_ratio=increase] enlarges the requested box
    to the aspect ratio of the input.  [crop=w:h] takes the centred
    [w]x[h] window and fails when the input is smaller. *)
Definition apply_filter (f : vfilter) (size : Z * Z) : option (Z * Z) :=
  let '(iw, ih) := size in
  match f with
  | Scale w h =>
      let w := if w =? 0 then iw else w in
      let h := if h =? 0 then ih else h in
      if (w <? 0) && (h <? 0) then Some (iw, ih)
      else if w <? 0 then Some (rescale h iw (ih * - w) * - w, h)
      else if h <? 0 then Some (w, rescale w ih (iw * - h) * - h)
      else Some (w, h)
  | ScaleIncrease w h =>
      Some (Z.max (rescale h iw ih) w, Z.max (rescale w ih iw) h)
  | Crop w h =>
      if (0 <? w) && (0 <? h) && (w <=? iw) && (h <=? ih) then Some (w, h) else None
  end.

Fixpoint apply_graph (g : list vfilter) (size : Z * Z) : option (Z * Z) :=
  match g with
  | [] => Some size
  | f :: g' =>
      match apply_filter f size with
      | Some size' => apply_graph g' size'
      | None => None
      end
  end.

End Filter.

(** The graphs of [create_vertical_clip] and of the first command of
    [generate_thumbnail]. *)
Definition clip_graph : list Filter.vfilter :=
  [Filter.Scale (-2) target_height; Filter.Crop target_width target_height].

Definition thumb_graph : list Filter.vfilter :=
  [Filter.ScaleIncrease 1080 1920; Filter.Crop 1080 1920].

(** ** Notions used in the statements *)

(** What [get_video_duration] hands to its caller. *)
Definition probed_duration (E : Env) (video_path : string) : Q :=
  match ffprobe_duration E (duration_cmd video_path) with
  | ProbeValue d => d
  | _ => 300%Q
  end.

Definition probe_ok {T} (p : probe T) : bool :=
  match p with ProbeValue _ => true | _ => false end.

(** The commands run between two states, oldest first. *)
Definition runs_since (s s' : Sys) : list (Cmd * bool) :=
  drop (length (ran s)) (ran s').

(** The temporary caption file of [burn_subtitles]. *)
Definition tmp_srt (E : Env) : string :=
  path_join "/tmp" ("tmp" +:+ tmp_token E ".srt" +:+ ".srt").

(** The state after a run of [ffmpeg] that completed, and after one
    that failed. *)
Definition completed_run (c : Cmd) (s : Sys) : Sys :=
  set_fs (<[output_of c := Media c true]>) (log_run c true s).

Definition failed_run (E : Env) (c : Cmd) (s : Sys) : Sys :=
  if ffmpeg_partial E c
  then set_fs (<[output_of c := Media c false]>) (log_run c false s)
  else log_run c false s.

(** The state once the caption file [tmp] holds the copy [c]. *)
Definition staged (tmp : string) (c : content) (s : Sys) : Sys :=
  set_fs (<[tmp := c]>) (set_fs (<[tmp := Text ""]>) s).




(** All the blocks of an SRT file, numbered from [i + 1]. *)
Fixpoint srt_text (i : nat) (segments : list segment) : string :=
  match segments with
  | [] => ""
  | seg :: rest => srt_block i seg +:+ srt_text (S i) rest
  end.

(** ** Sample runs *)

Definition fresh_sys : Sys := {| fs := ∅; ran := [] |}.

(** Every tool works; the source lasts 300 s and is 1920x1080. *)
Definition sample_env : Env := {|
  HAS_OPENCV := true;
  HAS_WHISPER := true;
  now := "20260101_120000";
  gettempdir := "/tmp";
  tmp_token := λ _, "k3x9q2ab";
  which := λ _, true;
  yt_dlp := λ _, Exit0;
  yt_dlp_files := λ _, ["original.mp4"];
  ffprobe_duration := λ _, ProbeValue 300%Q;
  ffprobe_size := λ _, ProbeValue (1920, 1080);
  ffmpeg := λ _, Exit0;
  ffmpeg_partial := λ _, false;
  wave_readable := λ _, true;
  transcribe := λ _ _, Some [Segment 0 2 "Hello"; Segment 2 (9 # 2) " world "]
|}.

Definition with_opencv (b : bool) (E : Env) : Env := {|
  HAS_OPENCV := b; HAS_WHISPER := HAS_WHISPER E; now := now E;
  gettempdir := gettempdir E; tmp_token := tmp_token E; which := which E;
  yt_dlp := yt_dlp E; yt_dlp_files := yt_dlp_files E;
  ffprobe_duration := ffprobe_duration E; ffprobe_size := ffprobe_size E;
  ffmpeg := ffmpeg E; ffmpeg_partial := ffmpeg_partial E;
  wave_readable := wave_readable E; transcribe := transcribe E
|}.

Definition with_duration (p : probe Q) (E : Env) : Env := {|
  HAS_OPENCV := HAS_OPENCV E; HAS_WHISPER := HAS_WHISPER E; now := now E;
  gettempdir := gettempdir E; tmp_token := tmp_token E; which := which E;
  yt_dlp := yt_dlp E; yt_dlp_files := yt_dlp_files E;
  ffprobe_duration := λ _, p; ffprobe_size := ffprobe_size E;
  ffmpeg := ffmpeg E; ffmpeg_partial := ffmpeg_partial E;
  wave_readable := wave_readable E; transcribe := transcribe E
|}.

Definition with_ffmpeg (f : Cmd -> exit) (E : Env) : Env := {|
  HAS_OPENCV := HAS_OPENCV E; HAS_WHISPER := HAS_WHISPER E; now := now E;
  gettempdir := gettempdir E; tmp_token := tmp_token E; which := which E;
  yt_dlp := yt_dlp E; yt_dlp_files := yt_dlp_files E;
  ffprobe_duration := ffprobe_duration E; ffprobe_size := ffprobe_size E;
  ffmpeg := f; ffmpeg_partial := ffmpeg_partial E;
  wave_readable := wave_readable E; transcribe := transcribe E
|}.

Definition with_transcribe (t : option (list segment)) (E : Env) : Env := {|
  HAS_OPENCV := HAS_OPENCV E; HAS_WHISPER := HAS_WHISPER E; now := now E;
  gettempdir := gettempdir E; tmp_token := tmp_token E; which := which E;
  yt_dlp := yt_dlp E; yt_dlp_files := yt_dlp_files E;
  ffprobe_duration := ffprobe_duration E; ffprobe_size := ffprobe_size E;
  ffmpeg := ffmpeg E; ffmpeg_partial := ffmpeg_partial E;
  wave_readable := wave_readable E; transcribe := λ _ _, t
|}.

(** [ffmpeg] fails on every command. *)
Definition failing_env : Env :=
  with_ffmpeg (λ _, ExitNonZero "Invalid data found when processing input") sample_env.

(** A file system that holds a subtitle file. *)
Definition srt_sys : Sys := set_fs (<["clip.srt" := Text "1"]>) fresh_sys.

Definition sample_args : Args := {|
  url := "https://youtu.be/a1b2c3";
  duration := 60;
  quality_arg := "1080p";
  output_dir := "./output";
  highlight_method := "audio";
  subtitle_lang := "en"
|}.

(** Does the command carry a [-vf] argument that starts with [p]? *)
Definition has_filter (p : string) (c : Cmd) : bool :=
  existsb (λ a, match a with Str s => String.prefix p s | Num _ => false end) c.

(** Does the command write to a file whose name ends in [.png]? *)
Definition writes_png (c : Cmd) : bool :=
  match strip_prefix "gnp." (String.rev (output_of c)) with
  | Some _ => true
  | None => false
  end.

(** The temporary audio file of [detect_audio_highlights]. *)
Definition tmp_wav (E : Env) : string :=
  path_join (gettempdir E) ("tmp" +:+ tmp_token E ".wav" +:+ ".wav").

(** [c] does not occur in [s]. *)
Fixpoint avoids (c : ascii) (s : string) : bool :=
  match s with
  | EmptyString => true
  | String x s' => negb (Ascii.eqb x c) && avoids c s'
  end.

(** The paths that [main] derives from the output directory and the
    time stamp. *)
Definition vertical_path_of (args : Args) (ts : string) : string :=
  path_join (output_dir args) ("vertical_" +:+ ts +:+ ".mp4").
Definition final_path_of (args : Args) (ts : string) : string :=
  path_join (output_dir args) ("final_" +:+ ts +:+ ".mp4").
Definition srt_path_of (args : Args) (ts : string) : string :=
  path_join (output_dir args) ("subtitles_" +:+ ts +:+ ".srt").
Definition thumbnail_path_of (args : Args) (ts : string) : string :=
  path_join (output_dir args) ("thumbnail_" +:+ ts +:+ ".png").
Definition metadata_path_of (args : Args) (ts : string) : string :=
  path_join (output_dir args) ("metadata_" +:+ ts +:+ ".json").

(** [yt-dlp] fails; and [yt-dlp] completes but writes the given names. *)
Definition with_yt_dlp (x : exit) (names : list string) (E : Env) : Env := {|
  HAS_OPENCV := HAS_OPENCV E; HAS_WHISPER := HAS_WHISPER E; now := now E;
  gettempdir := gettempdir E; tmp_token := tmp_token E; which := which E;
  yt_dlp := λ _, x; yt_dlp_files := λ _, names;
  ffprobe_duration := ffprobe_duration E; ffprobe_size := ffprobe_size E;
  ffmpeg := ffmpeg E; ffmpeg_partial := ffmpeg_partial E;
  wave_readable := wave_readable E; transcribe := transcribe E
|}.

Definition with_which (w : string -> bool) (E : Env) : Env := {|
  HAS_OPENCV := HAS_OPENCV E; HAS_WHISPER := HAS_WHISPER E; now := now E;
  gettempdir := gettempdir E; tmp_token := tmp_token E; which := w;
  yt_dlp := yt_dlp E; yt_dlp_files := yt_dlp_files E;
  ffprobe_duration := ffprobe_duration E; ffprobe_size := ffprobe_size E;
  ffmpeg := ffmpeg E; ffmpeg_partial := ffmpeg_partial E;
  wave_readable := wave_readable E; transcribe := transcribe E
|}.

Definition with_whisper (b : bool) (E : Env) : Env := {|
  HAS_OPENCV := HAS_OPENCV E; HAS_WHISPER := b; now := now E;
  gettempdir := gettempdir E; tmp_token := tmp_token E; which := which E;
  yt_dlp := yt_dlp E; yt_dlp_files := yt_dlp_files E;
  ffprobe_duration := ffprobe_duration E; ffprobe_size := ffprobe_size E;
  ffmpeg := ffmpeg E; ffmpeg_partial := ffmpeg_partial E;
  wave_readable := wave_readable E; transcribe := transcribe E
|}.

(** * Properties *)

(** ** Running monadic code *)

Ltac py_unfold :=
  unfold bind, ret, raise, modify, get, try_except,
    except_all, except_CalledProcessError, except_Exception in *.

Lemma get_video_duration_total E p s :
  get_video_duration E p s =
    (Returned (probed_duration E p),
     log_run (duration_cmd p) (probe_ok (ffprobe_duration E (duration_cmd p))) s).
Proof.
  unfold get_video_duration, probed_duration.
  destruct (ffprobe_duration E (duration_cmd p)); reflexivity.
Qed.

Lemma detect_face_segments_midpoint E p d s :
  detect_face_segments E p d s =
    (Returned (midpoint (probed_duration E p) d, d),
     log_run (duration_cmd p) (probe_ok (ffprobe_duration E (duration_cmd p))) s).
Proof.
  unfold detect_face_segments. py_unfold.
  rewrite get_video_duration_total. reflexivity.
Qed.

Lemma detect_audio_highlights_midpoint E p d s :
  exists s', detect_audio_highlights E p d s =
    (Returned (midpoint (probed_duration E p) d, d), s').
Proof.
  unfold detect_audio_highlights, NamedTemporaryFile, run_ffmpeg, leftover, write_file,
    read_wave, unlink.
  py_unfold.
  destruct (ffmpeg E _) eqn:Hff; cbn.
  - destruct (wave_readable E _); cbn.
    + rewrite lookup_insert_eq; cbn. rewrite get_video_duration_total; eauto.
    + rewrite get_video_duration_total; eauto.
  - destruct (ffmpeg_partial E _); cbn; rewrite get_video_duration_total; eauto.
Qed.

Lemma detect_highlights_with_opencv E p d method s :
  HAS_OPENCV E = true ->
  exists s', detect_highlights E p d method s =
    (Returned (midpoint (probed_duration E p) d, d), s').
Proof.
  intros Hcv. unfold detect_highlights. rewrite Hcv. cbn [negb].
  unfold bind at 1. rewrite get_video_duration_total.
  destruct (String.eqb method "audio").
  - apply detect_audio_highlights_midpoint.
  - destruct (String.eqb method "face").
    + rewrite detect_face_segments_midpoint. eauto.
    + unfold ret. eauto.
Qed.

Lemma detect_highlights_fallback_run E p d method s :
  HAS_OPENCV E = false ->
  detect_highlights E p d method s =
    (Returned (probed_duration E p, d),
     log_run (duration_cmd p) (probe_ok (ffprobe_duration E (duration_cmd p))) s).
Proof.
  intros Hcv. unfold detect_highlights. rewrite Hcv. cbn [negb].
  unfold bind. rewrite get_video_duration_total. reflexivity.
Qed.

Lemma midpoint_covered (total d : Q) : (total <= d)%Q -> midpoint total d = 0%Q.
Proof.
  intros Hle. unfold midpoint, max0.
  assert (H : Qle_bool ((total - d) / 2) 0 = true).
  { apply Qle_bool_iff. apply Qle_shift_div_r; [reflexivity | lra]. }
  rewrite H. reflexivity.
Qed.

(** ** HighlightSelector *)

(** C3, as the claim states it, fails: a 30 s source and a requested
    window of 60 s give start 0 and duration 60, not 30. *)
Lemma detect_highlights_clamp_counterexample :
  ~ (forall E p d method s total s1 r s',
       get_video_duration E p s = (Returned total, s1) ->
       (total <= d)%Q ->
       detect_highlights E p d method s = (Returned r, s') ->
       (fst r == 0)%Q /\ (snd r == total)%Q).
Proof.
  intros H.
  destruct (H (with_duration (ProbeValue 30%Q) sample_env) "video.mp4" 60%Q "audio"
              fresh_sys 30%Q _ _ _ eq_refl ltac:(discriminate) eq_refl) as [_ Hd].
  vm_compute in Hd. discriminate.
Qed.

(** C3, amended: when the requested window is at least as long as the
    duration that [get_video_duration] reports, and OpenCV is present,
    [detect_highlights] returns start 0 and the requested duration,
    unchanged: nothing clamps it to the duration of the source. *)
Theorem detect_highlights_window_covers_source E p d method s total s1 :
  HAS_OPENCV E = true ->
  get_video_duration E p s = (Returned total, s1) ->
  (total <= d)%Q ->
  exists s', detect_highlights E p d method s = (Returned (0%Q, d), s').
Proof.
  intros Hcv Hprobe Hle.
  rewrite get_video_duration_total in Hprobe. injection Hprobe as Htotal _.
  destruct (detect_highlights_with_opencv E p d method s Hcv) as [s' Hs'].
  exists s'. rewrite Hs', Htotal, (midpoint_covered total d Hle). reflexivity.
Qed.

Lemma detect_highlights_window_covers_source_witness :
  exists s', detect_highlights (with_duration (ProbeValue 30%Q) sample_env)
               "video.mp4" 60%Q "face" fresh_sys = (Returned (0%Q, 60%Q), s').
Proof.
  apply (detect_highlights_window_covers_source
           (with_duration (ProbeValue 30%Q) sample_env) "video.mp4" 60%Q "face"
           fresh_sys 30%Q
           (log_run (duration_cmd "video.mp4") true fresh_sys)).
  - reflexivity.
  - reflexivity.
  - discriminate.
Defined.

(** C4, at the failing input: without OpenCV, on a 300 s source and a
    requested window of 60 s, [detect_highlights] returns the duration
    of the source, 300, as the start; the midpoint is 120. *)
Theorem detect_highlights_without_opencv_start :
  exists s',
    detect_highlights (with_opencv false sample_env) "video.mp4" 60%Q "audio" fresh_sys
      = (Returned (300%Q, 60%Q), s') /\
    (midpoint 300 60 == 120)%Q /\
    ~ (300 == midpoint 300 60)%Q.
Proof.
  eexists. split; [reflexivity|]. split; vm_compute; [reflexivity | discriminate].
Qed.

(** C10: when the duration probe fails, because [ffprobe] errors or
    because its output is not a number, [get_video_duration] returns
    300 and raises nothing, and 300 is the total duration that enters
    the midpoint of every strategy of the selector. *)
Theorem get_video_duration_default E video_path :
  ffprobe_duration E (duration_cmd video_path) = ProbeFailed \/
  ffprobe_duration E (duration_cmd video_path) = ProbeUnparsable ->
  (forall s, exists s', get_video_duration E video_path s = (Returned 300%Q, s')) /\
  (forall d s, exists s',
     detect_audio_highlights E video_path d s = (Returned (midpoint 300 d, d), s')) /\
  (forall d s, exists s',
     detect_face_segments E video_path d s = (Returned (midpoint 300 d, d), s')) /\
  (forall d method s, HAS_OPENCV E = true -> exists s',
     detect_highlights E video_path d method s = (Returned (midpoint 300 d, d), s')).
Proof.
  intros Hfail.
  assert (Hd : probed_duration E video_path = 300%Q).
  { unfold probed_duration. destruct Hfail as [-> | ->]; reflexivity. }
  repeat split.
  - intros s. rewrite get_video_duration_total, Hd. eauto.
  - intros d s. rewrite <- Hd. apply detect_audio_highlights_midpoint.
  - intros d s. rewrite detect_face_segments_midpoint, Hd. eauto.
  - intros d method s Hcv. rewrite <- Hd. by apply detect_highlights_with_opencv.
Qed.

Lemma get_video_duration_default_witness :
  exists s', get_video_duration (with_duration ProbeUnparsable sample_env)
               "video.mp4" fresh_sys = (Returned 300%Q, s').
Proof.
  apply (get_video_duration_default (with_duration ProbeUnparsable sample_env)
           "video.mp4" (or_intror eq_refl)).
Defined.


(** ** FrameTransformer *)

Lemma clip_cmd_graph input_path output_path start_time d :
  Str (Filter.render_graph clip_graph) ∈ clip_cmd input_path output_path start_time d.
Proof.
  unfold clip_cmd.
  replace (scale_filter +:+ "," +:+ crop_filter) with (Filter.render_graph clip_graph)
    by reflexivity.
  set_solver.
Qed.

Lemma thumb_cmd_graph video_path output_image time_sec :
  Str (Filter.render_graph thumb_graph) ∈ thumb_cmd video_path output_image time_sec.
Proof.
  unfold thumb_cmd.
  replace "scale=1080:1920:force_original_aspect_ratio=increase,crop=1080:1920"
    with (Filter.render_graph thumb_graph) by reflexivity.
  set_solver.
Qed.

(** The size probe does not reach the command. *)
Lemma create_vertical_clip_runs E input_path output_path start_time d s :
  exists b s',
    create_vertical_clip E input_path output_path start_time d s = (Returned b, s') /\
    runs_since s s' =
      [(size_cmd input_path, probe_ok (ffprobe_size E (size_cmd input_path)));
       (clip_cmd input_path output_path start_time d, b)].
Proof.
  unfold create_vertical_clip, run_ffmpeg, leftover, write_file, runs_since.
  py_unfold.
  destruct (ffprobe_size E _) as [[w h]| |]; cbn;
    (destruct (ffmpeg E _); cbn;
     [| destruct (ffmpeg_partial E _); cbn]);
    do 2 eexists; (split; [reflexivity|]);
    cbn [ran set_fs log_run];
    rewrite <- ?app_assoc, drop_app_length; reflexivity.
Qed.

Lemma crop_fits (w h iw ih : Z) :
  0 < w -> 0 < h -> w <= iw -> h <= ih ->
  Filter.apply_filter (Filter.Crop w h) (iw, ih) = Some (w, h).
Proof.
  intros Hw Hh Hiw Hih. unfold Filter.apply_filter.
  apply Z.ltb_lt in Hw, Hh. apply Z.leb_le in Hiw, Hih.
  rewrite Hw, Hh, Hiw, Hih. reflexivity.
Qed.

(** Sources at least as wide as 9:16 are scaled to the target height
    and cropped to 1080x1920. *)
Lemma clip_graph_wide_source (w h : Z) :
  0 < w -> 0 < h -> 9 * h <= 16 * w ->
  Filter.apply_graph clip_graph (w, h) = Some (1080, 1920).
Proof.
  intros Hw Hh Hwide.
  assert (Hscaled : 540 <= Filter.rescale 1920 w (h * 2)).
  { unfold Filter.rescale. apply Z.div_le_lower_bound; [lia|].
    replace (h * 2 / 2) with h by (symmetry; apply Z.div_mul; lia). lia. }
  change (Filter.apply_graph clip_graph (w, h))
    with (match Filter.apply_filter (Filter.Crop 1080 1920)
                  (Filter.rescale 1920 w (h * 2) * 2, 1920) with
          | Some size' => Some size'
          | None => None
          end).
  rewrite crop_fits; [reflexivity | lia..].
Qed.

(** The graph of the thumbnail covers the target for every source. *)
Lemma thumb_graph_any_source (w h : Z) :
  Filter.apply_graph thumb_graph (w, h) = Some (1080, 1920).
Proof.
  change (Filter.apply_graph thumb_graph (w, h))
    with (match Filter.apply_filter (Filter.Crop 1080 1920)
                  (Z.max (Filter.rescale 1920 w h) 1080,
                   Z.max (Filter.rescale 1080 h w) 1920) with
          | Some size' => Some size'
          | None => None
          end).
  rewrite crop_fits; [reflexivity | lia..].
Qed.

(** Running the transform again on its own result leaves the same
    files. *)
Lemma create_vertical_clip_again E input_path output_path start_time d s s1 :
  create_vertical_clip E input_path output_path start_time d s = (Returned true, s1) ->
  exists s2,
    create_vertical_clip E input_path output_path start_time d s1 = (Returned true, s2) /\
    fs s2 = fs s1.
Proof.
  unfold create_vertical_clip, run_ffmpeg, leftover, write_file.
  py_unfold.
  destruct (ffprobe_size E _) as [[w h]| |]; cbn;
    (destruct (ffmpeg E _); cbn;
     [| destruct (ffmpeg_partial E _); cbn; discriminate]);
    intros [= <-]; cbn; eexists; (split; [reflexivity|]); cbn;
    apply insert_insert_eq.
Qed.

(** C5, at the failing input: whatever the size probe says, the
    command of [create_vertical_clip] carries the graph
    [scale=-2:1920,crop=1080:1920]; on a 1080x2400 source the scale
    gives 864x1920, narrower than the target, and the crop to
    1080x1920 cannot be done, although the graph of
    [generate_thumbnail] gives 1080x1920 on the same source. *)
Theorem create_vertical_clip_narrow_source :
  (forall E input_path output_path start_time d s,
     exists b s',
       create_vertical_clip E input_path output_path start_time d s = (Returned b, s') /\
       last (ran s') = Some (clip_cmd input_path output_path start_time d, b) /\
       Str (Filter.render_graph clip_graph) ∈
         clip_cmd input_path output_path start_time d) /\
  Filter.apply_filter (Filter.Scale (-2) target_height) (1080, 2400) = Some (864, 1920) /\
  Filter.apply_graph clip_graph (1080, 2400) = None /\
  Filter.apply_graph thumb_graph (1080, 2400) = Some (1080, 1920).
Proof.
  split; [|repeat split; reflexivity].
  intros E input_path output_path start_time d s.
  destruct (create_vertical_clip_runs E input_path output_path start_time d s)
    as (b & s' & Hrun & Hsince).
  exists b, s'. split; [done|]. split; [|apply clip_cmd_graph].
  unfold runs_since in Hsince.
  rewrite <- (take_drop (length (ran s)) (ran s')), Hsince.
  by rewrite last_app.
Qed.


(** ** Strings and states *)

Lemma string_app_assoc (a b c : string) : (a +:+ b) +:+ c = a +:+ (b +:+ c).
Proof.
  induction a as [|x a IH]; [reflexivity|].
  change (String x ((a +:+ b) +:+ c) = String x (a +:+ (b +:+ c))). by rewrite IH.
Qed.

Lemma string_app_nil_r (a : string) : a +:+ "" = a.
Proof.
  induction a as [|x a IH]; [reflexivity|].
  change (String x (a +:+ "") = String x a). by rewrite IH.
Qed.

Lemma set_fs_set_fs f g s : set_fs f (set_fs g s) = set_fs (f ∘ g) s.
Proof. reflexivity. Qed.

Lemma set_fs_id f s : f (fs s) = fs s -> set_fs f s = s.
Proof. destruct s as [m r]. unfold set_fs. cbn. by intros ->. Qed.

(** ** TranscriptGenerator *)

Lemma write_segments_text output_srt segments : forall i old s,
  fs s !! output_srt = Some (Text old) ->
  write_segments output_srt i segments s =
    (Returned tt, set_fs (<[output_srt := Text (old +:+ srt_text i segments)]>) s).
Proof.
  induction segments as [|seg rest IH]; intros i old s Hold.
  - cbn. unfold ret. f_equal. symmetry. apply set_fs_id.
    rewrite string_app_nil_r. by apply insert_id.
  - cbn [write_segments srt_text]. unfold bind at 1.
    unfold append_file, write_file. py_unfold. rewrite Hold.
    rewrite (IH (S i) (old +:+ srt_block i seg)).
    + rewrite set_fs_set_fs. unfold set_fs. cbn. do 2 f_equal.
      rewrite insert_insert_eq. by rewrite string_app_assoc.
    + cbn. apply lookup_insert_eq.
Qed.

(** With Whisper present and an engine that answers, every segment is
    written, in the order of the engine, and the stage reports
    success. *)
Lemma generate_subtitles_writes_all E video_path output_srt language segments s :
  HAS_WHISPER E = true ->
  transcribe E video_path language = Some segments ->
  generate_subtitles E video_path output_srt language s =
    (Returned true, set_fs (<[output_srt := Text (srt_text 0 segments)]>) s).
Proof.
  intros Hw Ht. unfold generate_subtitles, whisper_transcribe, write_file.
  rewrite Hw, Ht. py_unfold. cbn.
  rewrite (write_segments_text output_srt segments 0 "").
  - rewrite set_fs_set_fs. unfold set_fs. cbn. do 2 f_equal.
    apply insert_insert_eq.
  - cbn. apply lookup_insert_eq.
Qed.

Lemma generate_subtitles_run E video_path output_srt language s :
  HAS_WHISPER E = true ->
  generate_subtitles E video_path output_srt language s =
    match transcribe E video_path language with
    | Some segments =>
        (Returned true, set_fs (<[output_srt := Text (srt_text 0 segments)]>) s)
    | None => (Returned false, s)
    end.
Proof.
  intros Hw. destruct (transcribe E video_path language) as [segments|] eqn:Ht.
  - by apply generate_subtitles_writes_all.
  - unfold generate_subtitles, whisper_transcribe. rewrite Hw, Ht. reflexivity.
Qed.

(** [generate_subtitles] raises nothing. *)
Lemma generate_subtitles_returns E video_path output_srt language s :
  exists b s', generate_subtitles E video_path output_srt language s = (Returned b, s').
Proof.
  destruct (HAS_WHISPER E) eqn:Hw.
  - destruct (transcribe E video_path language) as [segments|] eqn:Ht.
    + erewrite generate_subtitles_writes_all by eassumption. eauto.
    + unfold generate_subtitles, whisper_transcribe. rewrite Hw, Ht. py_unfold. cbn. eauto.
  - unfold generate_subtitles. rewrite Hw. cbn. unfold ret. eauto.
Qed.





(** ** Running [ffmpeg] *)

Lemma run_ffmpeg_Exit0 E c s :
  ffmpeg E c = Exit0 ->
  run_ffmpeg E c s = (Returned tt, completed_run c s).
Proof. intros H. unfold run_ffmpeg. rewrite H. reflexivity. Qed.

Lemma run_ffmpeg_ExitNonZero E c err s :
  ffmpeg E c = ExitNonZero err ->
  run_ffmpeg E c s = (Raised (CalledProcessError err), failed_run E c s).
Proof.
  intros H. unfold run_ffmpeg, leftover, failed_run, write_file. rewrite H.
  py_unfold. by destruct (ffmpeg_partial E c).
Qed.

Lemma unlink_present p s :
  is_Some (fs s !! p) -> unlink p s = (Returned tt, set_fs (delete p) s).
Proof. intros [c Hc]. unfold unlink. py_unfold. by rewrite Hc. Qed.

Lemma path_exists_run p s :
  path_exists p s = (Returned (bool_decide (is_Some (fs s !! p))), s).
Proof. reflexivity. Qed.

Lemma ran_completed_run c s : ran (completed_run c s) = ran s ++ [(c, true)].
Proof. reflexivity. Qed.

Lemma ran_failed_run E c s : ran (failed_run E c s) = ran s ++ [(c, false)].
Proof. unfold failed_run. by destruct (ffmpeg_partial E c). Qed.

Lemma fs_completed_run c s : fs (completed_run c s) = <[output_of c := Media c true]> (fs s).
Proof. reflexivity. Qed.

Lemma fs_failed_run_ne E c s p :
  p ≠ output_of c -> fs (failed_run E c s) !! p = fs s !! p.
Proof.
  intros Hp. unfold failed_run. destruct (ffmpeg_partial E c); cbn; [|done].
  by rewrite lookup_insert_ne.
Qed.

Lemma fs_failed_run_present E c s p :
  is_Some (fs s !! p) -> is_Some (fs (failed_run E c s) !! p).
Proof.
  intros Hp. unfold failed_run. destruct (ffmpeg_partial E c); cbn; [|done].
  rewrite lookup_insert_is_Some. destruct (decide (output_of c = p)); auto.
Qed.

Lemma fs_completed_run_present c s p :
  is_Some (fs s !! p) -> is_Some (fs (completed_run c s) !! p).
Proof.
  intros Hp. rewrite fs_completed_run, lookup_insert_is_Some.
  destruct (decide (output_of c = p)); auto.
Qed.

(** ** CaptionBurner *)

Lemma attempt_Exit0 E c tmp s :
  ffmpeg E c = Exit0 ->
  is_Some (fs s !! tmp) ->
  attempt E c tmp s = (Returned (Some true), set_fs (delete tmp) (completed_run c s)).
Proof.
  intros Hc Htmp. unfold attempt, try_except, bind.
  rewrite (run_ffmpeg_Exit0 _ _ _ Hc).
  rewrite unlink_present by by apply fs_completed_run_present.
  reflexivity.
Qed.

Lemma attempt_ExitNonZero E c tmp err s :
  ffmpeg E c = ExitNonZero err ->
  attempt E c tmp s = (Returned None, failed_run E c s).
Proof.
  intros Hc. unfold attempt, try_except, bind.
  rewrite (run_ffmpeg_ExitNonZero _ _ _ _ Hc). reflexivity.
Qed.

(** The caption file is in place before the first attempt. *)
Lemma stage_srt E srt_path c0 s :
  fs s !! srt_path = Some c0 ->
  exists c,
    (tmp_srt_path ← NamedTemporaryFile E "/tmp" ".srt";
     copy2 srt_path tmp_srt_path;;
     ret tmp_srt_path)%py s = (Returned (tmp_srt E), staged (tmp_srt E) c s).
Proof.
  intros Hsrt. unfold NamedTemporaryFile, copy2, write_file. py_unfold. cbn.
  fold (tmp_srt E).
  destruct (decide (tmp_srt E = srt_path)) as [<-|Hne].
  - rewrite lookup_insert_eq. eauto.
  - rewrite lookup_insert_ne, Hsrt by done. eauto.
Qed.

Lemma staged_present tmp c s : is_Some (fs (staged tmp c s) !! tmp).
Proof. unfold staged. cbn. rewrite lookup_insert_eq. eauto. Qed.

(** The whole of [burn_subtitles], one case per outcome of the chain. *)
Lemma burn_subtitles_run E video_path srt_path output_path c0 s :
  fs s !! srt_path = Some c0 ->
  let tmp := tmp_srt E in
  let c1 := cmd1 video_path (escape_path tmp) output_path in
  let c2 := cmd2 video_path (escape_path tmp) output_path in
  let c3 := cmd3 video_path output_path in
  exists c,
    let s0 := staged tmp c s in
    burn_subtitles E video_path srt_path output_path s =
      match ffmpeg E c1, ffmpeg E c2, ffmpeg E c3 with
      | Exit0, _, _ =>
          (Returned true, set_fs (delete tmp) (completed_run c1 s0))
      | ExitNonZero _, Exit0, _ =>
          (Returned true, set_fs (delete tmp) (completed_run c2 (failed_run E c1 s0)))
      | ExitNonZero _, ExitNonZero _, Exit0 =>
          (Returned true,
           set_fs (delete tmp)
             (completed_run c3 (failed_run E c2 (failed_run E c1 s0))))
      | ExitNonZero _, ExitNonZero _, ExitNonZero _ =>
          (Returned false,
           set_fs (delete tmp)
             (failed_run E c3 (failed_run E c2 (failed_run E c1 s0))))
      end.
Proof.
  intros Hsrt tmp c1 c2 c3.
  destruct (stage_srt E srt_path c0 s Hsrt) as [c Hstage].
  exists c. intros s0.
  unfold burn_subtitles. unfold bind at 1. rewrite path_exists_run.
  rewrite Hsrt, bool_decide_true by eauto. cbn [negb].
  revert Hstage. unfold bind at 1 2 3 4. 
  destruct (NamedTemporaryFile E "/tmp" ".srt" s) as [[t|e] st] eqn:Htmp; [|discriminate].
  destruct (copy2 srt_path t st) as [[[]|e] st'] eqn:Hcopy; [|discriminate].
  unfold ret at 1. intros [= -> ->]. fold tmp s0. fold c1 c2 c3.
  assert (Hp0 : is_Some (fs s0 !! tmp)) by apply staged_present.
  unfold bind at 1.
  destruct (ffmpeg E c1) as [|e1] eqn:H1.
  { rewrite (attempt_Exit0 _ _ _ _ H1 Hp0). reflexivity. }
  rewrite (attempt_ExitNonZero _ _ _ _ _ H1).
  assert (Hp1 : is_Some (fs (failed_run E c1 s0) !! tmp))
    by by apply fs_failed_run_present.
  cbv beta iota. unfold bind at 1.
  destruct (ffmpeg E c2) as [|e2] eqn:H2.
  { rewrite (attempt_Exit0 _ _ _ _ H2 Hp1). reflexivity. }
  rewrite (attempt_ExitNonZero _ _ _ _ _ H2).
  assert (Hp2 : is_Some (fs (failed_run E c2 (failed_run E c1 s0)) !! tmp))
    by by apply fs_failed_run_present.
  cbv beta iota. unfold try_except at 1, bind at 1.
  destruct (ffmpeg E c3) as [|e3] eqn:H3.
  { rewrite (run_ffmpeg_Exit0 _ _ _ H3). unfold bind.
    rewrite unlink_present by by apply fs_completed_run_present.
    reflexivity. }
  rewrite (run_ffmpeg_ExitNonZero _ _ _ _ H3).
  unfold except_CalledProcessError, bind, try_except.
  rewrite unlink_present by by apply fs_failed_run_present.
  reflexivity.
Qed.

Lemma burn_subtitles_cleans_up E video_path srt_path output_path c0 s :
  fs s !! srt_path = Some c0 ->
  exists r s',
    burn_subtitles E video_path srt_path output_path s = (Returned r, s') /\
    fs s' !! tmp_srt E = None.
Proof.
  intros Hsrt.
  destruct (burn_subtitles_run E video_path srt_path output_path c0 s Hsrt) as [c Hrun].
  cbv zeta in Hrun. rewrite Hrun.
  destruct (ffmpeg E (cmd1 _ _ _)); [|destruct (ffmpeg E (cmd2 _ _ _));
    [|destruct (ffmpeg E (cmd3 _ _))]];
    do 2 eexists; (split; [reflexivity|]); cbn [fs set_fs]; apply lookup_delete_eq.
Qed.


Lemma output_of_cmd1 v e out : output_of (cmd1 v e out) = out.
Proof. reflexivity. Qed.

Lemma output_of_cmd2 v e out : output_of (cmd2 v e out) = out.
Proof. reflexivity. Qed.

Lemma output_of_cmd3 v out : output_of (cmd3 v out) = out.
Proof. reflexivity. Qed.

Lemma runs_since_app s s' l : ran s' = ran s ++ l -> runs_since s s' = l.
Proof. intros H. unfold runs_since. rewrite H. apply drop_app_length. Qed.

Lemma ran_staged tmp c s : ran (staged tmp c s) = ran s.
Proof. reflexivity. Qed.

Lemma ran_set_fs f s : ran (set_fs f s) = ran s.
Proof. reflexivity. Qed.

Ltac ran_norm :=
  rewrite ?ran_set_fs, ?ran_completed_run, ?ran_failed_run, ?ran_staged, <- ?app_assoc;
  cbn [app].



(** C8, as the claim states it, fails: when the plain attempt fails
    and the styled one runs, both have written to the same output
    path. *)
Lemma burn_subtitles_fresh_output_counterexample :
  ~ (forall E video_path srt_path output_path s r s',
       burn_subtitles E video_path srt_path output_path s = (r, s') ->
       NoDup (map (λ run, output_of (fst run)) (runs_since s s'))).
Proof.
  intros H.
  specialize (H (with_ffmpeg (λ c, if has_filter "subtitles=/tmp/tmpk3x9q2ab.srt:force_style" c
                                   then Exit0 else ExitNonZero "No such filter")
                   sample_env)
                "clip.mp4" "clip.srt" "final.mp4" srt_sys _ _ eq_refl).
  vm_compute in H. inversion H as [|x l Hin _]; subst. apply Hin. left.
Qed.

(** C8, amended: every attempt of the chain writes to the one output
    path that the caller gave, not to a location of its own; every
    attempt that ran before the last one failed, so that no attempt
    runs after one that completed and the file of a completed attempt
    is never written again by the chain. *)
Theorem burn_subtitles_single_output E video_path srt_path output_path s r s' :
  burn_subtitles E video_path srt_path output_path s = (r, s') ->
  (forall c ok, (c, ok) ∈ runs_since s s' -> output_of c = output_path) /\
  (forall i c, runs_since s s' !! i = Some (c, true) ->
               S i = length (runs_since s s')).
Proof.
  revert r s'.
  destruct (fs s !! srt_path) as [c0|] eqn:Hsrt; intros r s'.
  - destruct (burn_subtitles_run E video_path srt_path output_path c0 s Hsrt) as [c Hrun].
    cbv zeta in Hrun. rewrite Hrun. clear Hrun.
    destruct (ffmpeg E (cmd1 _ _ _)); [|destruct (ffmpeg E (cmd2 _ _ _));
      [|destruct (ffmpeg E (cmd3 _ _))]];
      intros [= <- <-];
      (erewrite runs_since_app by (ran_norm; reflexivity));
      (split;
       [ intros c' ok Hin; repeat (apply elem_of_cons in Hin as [[= -> ->]|Hin]);
         try reflexivity; by apply elem_of_nil in Hin
       | intros [|[|[|i]]] c' Hi; cbn in Hi; try discriminate; reflexivity ]).
  - unfold burn_subtitles, bind. rewrite path_exists_run, Hsrt.
    rewrite bool_decide_false by (intros [? ?]; discriminate).
    cbn. intros [= <- <-]. unfold runs_since. rewrite drop_all.
    split; [intros c ok Hin; by apply elem_of_nil in Hin | intros i c Hi; discriminate].
Qed.

Lemma burn_subtitles_single_output_witness :
  (forall c ok,
     (c, ok) ∈ runs_since srt_sys
       (snd (burn_subtitles failing_env "clip.mp4" "clip.srt" "final.mp4" srt_sys)) ->
     output_of c = "final.mp4") /\
  (forall i c,
     runs_since srt_sys
       (snd (burn_subtitles failing_env "clip.mp4" "clip.srt" "final.mp4" srt_sys)) !! i
       = Some (c, true) ->
     S i = length (runs_since srt_sys
                     (snd (burn_subtitles failing_env "clip.mp4" "clip.srt" "final.mp4"
                             srt_sys)))).
Proof.
  apply (burn_subtitles_single_output failing_env "clip.mp4" "clip.srt" "final.mp4"
           srt_sys _ _ (surjective_pairing _)).
Defined.


(** ** Paths *)

Lemma path_join_ne d n1 n2 : n1 ≠ n2 -> path_join d n1 ≠ path_join d n2.
Proof.
  intros Hne H. unfold path_join in H.
  apply String.app_inj in H. by apply (String.app_inj "/") in H.
Qed.

Lemma chars_app (a b : string) :
  String.list_ascii_of_string (a +:+ b) =
  String.list_ascii_of_string a ++ String.list_ascii_of_string b.
Proof.
  induction a as [|x a IH]; [reflexivity|].
  change (x :: String.list_ascii_of_string (a +:+ b) =
          x :: (String.list_ascii_of_string a ++ String.list_ascii_of_string b)).
  by rewrite IH.
Qed.

Lemma mp4_ne_srt (a b : string) : a +:+ ".mp4" ≠ b +:+ ".srt".
Proof.
  intros H. apply (f_equal (λ x, last (String.list_ascii_of_string x))) in H.
  rewrite !chars_app, !last_app in H. discriminate.
Qed.

Lemma path_join_suffix d a suffix :
  path_join d (a +:+ suffix) = path_join d a +:+ suffix.
Proof. unfold path_join. by rewrite !string_app_assoc. Qed.

Lemma clip_ne_tmp_srt E d a ts :
  path_join d (a +:+ ts +:+ ".mp4") ≠ tmp_srt E.
Proof.
  unfold tmp_srt.
  rewrite <- (string_app_assoc a ts ".mp4"), <- (string_app_assoc "tmp" _ ".srt").
  rewrite !path_join_suffix. apply mp4_ne_srt.
Qed.

Lemma vertical_ne_final d ts :
  path_join d ("vertical_" +:+ ts +:+ ".mp4") ≠ path_join d ("final_" +:+ ts +:+ ".mp4").
Proof. apply path_join_ne. discriminate. Qed.

(** ** The stages of [main] after the clip *)

Lemma generate_thumbnail_run E video_path output_image time_sec s :
  generate_thumbnail E video_path output_image time_sec s =
    match ffmpeg E (thumb_cmd video_path output_image time_sec),
          ffmpeg E (thumb_cmd2 video_path output_image) with
    | Exit0, _ =>
        (Returned true, completed_run (thumb_cmd video_path output_image time_sec) s)
    | ExitNonZero _, Exit0 =>
        (Returned true,
         completed_run (thumb_cmd2 video_path output_image)
           (failed_run E (thumb_cmd video_path output_image time_sec) s))
    | ExitNonZero _, ExitNonZero _ =>
        (Returned false,
         failed_run E (thumb_cmd2 video_path output_image)
           (failed_run E (thumb_cmd video_path output_image time_sec) s))
    end.
Proof.
  unfold generate_thumbnail, try_except, bind.
  destruct (ffmpeg E (thumb_cmd video_path output_image time_sec)) eqn:H1.
  - by rewrite (run_ffmpeg_Exit0 _ _ _ H1).
  - rewrite (run_ffmpeg_ExitNonZero _ _ _ _ H1). unfold except_CalledProcessError.
    destruct (ffmpeg E (thumb_cmd2 video_path output_image)) eqn:H2.
    + by rewrite (run_ffmpeg_Exit0 _ _ _ H2).
    + by rewrite (run_ffmpeg_ExitNonZero _ _ _ _ H2).
Qed.

Lemma generate_thumbnail_returns E video_path output_image time_sec s :
  exists b s', generate_thumbnail E video_path output_image time_sec s = (Returned b, s').
Proof.
  rewrite generate_thumbnail_run.
  destruct (ffmpeg E (thumb_cmd _ _ _)); [|destruct (ffmpeg E (thumb_cmd2 _ _))]; eauto.
Qed.

(** [generate_thumbnail] writes nowhere but to the image. *)
Lemma generate_thumbnail_frame E video_path output_image time_sec s b s' p :
  generate_thumbnail E video_path output_image time_sec s = (Returned b, s') ->
  p ≠ output_image ->
  fs s' !! p = fs s !! p.
Proof.
  rewrite generate_thumbnail_run. intros Hrun Hp.
  destruct (ffmpeg E (thumb_cmd _ _ _)); [|destruct (ffmpeg E (thumb_cmd2 _ _))];
    injection Hrun as <- <-;
    rewrite ?fs_completed_run, ?lookup_insert_ne, ?fs_failed_run_ne; done.
Qed.

(** [subtitle_stage] writes nowhere but to the subtitle file. *)
Lemma subtitle_stage_frame E args ts vertical_path s s1 p :
  subtitle_stage E args ts vertical_path s = (Returned tt, s1) ->
  p ≠ path_join (output_dir args) ("subtitles_" +:+ ts +:+ ".srt") ->
  fs s1 !! p = fs s !! p.
Proof.
  unfold subtitle_stage. intros Hrun Hp.
  destruct (HAS_WHISPER E) eqn:Hw; [|by injection Hrun as <-].
  pose proof (generate_subtitles_run E vertical_path
                (path_join (output_dir args) ("subtitles_" +:+ ts +:+ ".srt"))
                (subtitle_lang args) s Hw) as Hgen.
  unfold bind in Hrun.
  destruct (transcribe E vertical_path (subtitle_lang args)); rewrite Hgen in Hrun;
    injection Hrun as <-; [|done].
  cbn [fs set_fs]. by rewrite lookup_insert_ne.
Qed.

Lemma subtitle_stage_returns E args ts vertical_path s :
  exists s', subtitle_stage E args ts vertical_path s = (Returned tt, s').
Proof.
  unfold subtitle_stage. destruct (HAS_WHISPER E); [|unfold ret; eauto].
  unfold bind.
  destruct (generate_subtitles_returns E vertical_path
              (path_join (output_dir args) ("subtitles_" +:+ ts +:+ ".srt"))
              (subtitle_lang args) s) as (b & s' & ->).
  unfold ret. eauto.
Qed.

Lemma burn_subtitles_returns E video_path srt_path output_path s :
  exists b s', burn_subtitles E video_path srt_path output_path s = (Returned b, s').
Proof.
  destruct (fs s !! srt_path) as [c0|] eqn:Hsrt.
  - destruct (burn_subtitles_cleans_up E video_path srt_path output_path c0 s Hsrt)
      as (r & s' & -> & _). eauto.
  - unfold burn_subtitles, bind. rewrite path_exists_run, Hsrt.
    rewrite bool_decide_false by (intros [? ?]; discriminate).
    cbn. unfold ret. eauto.
Qed.

Lemma caption_stage_returns E args ts vertical_path s :
  exists final_path s',
    caption_stage E args ts vertical_path s = (Returned final_path, s').
Proof.
  unfold caption_stage. unfold bind at 1. rewrite path_exists_run.
  destruct (bool_decide _).
  - unfold bind at 1 2.
    destruct (burn_subtitles_returns E vertical_path
                (path_join (output_dir args) ("subtitles_" +:+ ts +:+ ".srt"))
                (path_join (output_dir args) ("final_" +:+ ts +:+ ".mp4")) s)
      as (b & s' & ->).
    destruct b; cbn [negb]; unfold ret at 1; unfold bind; rewrite path_exists_run;
      destruct (bool_decide _); cbn [negb]; unfold ret; eauto.
  - unfold bind, ret. rewrite path_exists_run.
    destruct (bool_decide _); cbn [negb]; eauto.
Qed.

(** The metadata names the thumbnail whatever [generate_thumbnail]
    returned; the stage writes the image and the metadata only. *)
Lemma record_stage_returns E args ts vertical_path final_path start_time d s :
  exists s' m,
    record_stage E args ts vertical_path final_path start_time d s = (Returned tt, s') /\
    fs s' !! path_join (output_dir args) ("metadata_" +:+ ts +:+ ".json") = Some (Json m) /\
    final_clip (files m) = final_path /\
    thumbnail (files m) = path_join (output_dir args) ("thumbnail_" +:+ ts +:+ ".png") /\
    (forall p,
       p ≠ path_join (output_dir args) ("thumbnail_" +:+ ts +:+ ".png") ->
       p ≠ path_join (output_dir args) ("metadata_" +:+ ts +:+ ".json") ->
       fs s' !! p = fs s !! p).
Proof.
  unfold record_stage. unfold bind at 1.
  destruct (generate_thumbnail_returns E final_path
              (path_join (output_dir args) ("thumbnail_" +:+ ts +:+ ".png")) 10 s)
    as (b & s1 & Hthumb).
  rewrite Hthumb.
  unfold bind, write_file, modify. rewrite path_exists_run.
  do 2 eexists. split; [reflexivity|]. cbn [fs set_fs].
  rewrite lookup_insert_eq. split; [reflexivity|]. split; [reflexivity|].
  split; [reflexivity|].
  intros p Hp1 Hp2. rewrite lookup_insert_ne by done.
  by eapply generate_thumbnail_frame.
Qed.

Lemma main_after_clip_returns E args ts vertical_path start_time d s :
  exists s', main_after_clip E args ts vertical_path start_time d s = (Returned tt, s').
Proof.
  unfold main_after_clip. unfold bind at 1.
  destruct (subtitle_stage_returns E args ts vertical_path s) as (s1 & ->).
  unfold bind at 1.
  destruct (caption_stage_returns E args ts vertical_path s1) as (final_path & s2 & ->).
  destruct (record_stage_returns E args ts vertical_path final_path start_time d s2)
    as (s3 & m & -> & _). eauto.
Qed.






(** ** PipelineOrchestrator *)

Lemma detect_highlights_returns E p d method s :
  exists start_time d' s',
    detect_highlights E p d method s = (Returned (start_time, d'), s').
Proof.
  destruct (HAS_OPENCV E) eqn:Hcv.
  - destruct (detect_highlights_with_opencv E p d method s Hcv) as [s' ->]. eauto.
  - rewrite detect_highlights_fallback_run by done. eauto.
Qed.

Lemma create_vertical_clip_returns E input_path output_path start_time d s :
  exists b s',
    create_vertical_clip E input_path output_path start_time d s = (Returned b, s').
Proof.
  destruct (create_vertical_clip_runs E input_path output_path start_time d s)
    as (b & s' & -> & _). eauto.
Qed.

Lemma first_existing_returns candidates s :
  exists found, first_existing candidates s = (Returned found, s).
Proof.
  induction candidates as [|p rest IH]; [unfold first_existing, ret; eauto|].
  cbn [first_existing]. unfold bind. rewrite path_exists_run.
  destruct (bool_decide _); [unfold ret; eauto | apply IH].
Qed.

(** [download_video] lets through nothing but its own
    [FileNotFoundError]. *)
Lemma download_video_raises E u dir q s e s1 :
  download_video E u dir q s = (Raised e, s1) ->
  exists msg, e = FileNotFoundError msg.
Proof.
  unfold download_video, try_except, run_yt_dlp. unfold bind at 1.
  destruct (yt_dlp E _).
  - unfold bind at 1, modify at 1. unfold modify at 1. unfold bind at 1.
    match goal with |- context [first_existing ?l ?st] =>
      destruct (first_existing_returns l st) as [found ->] end.
    destruct found as [video_path|]; [unfold ret; discriminate|].
    unfold listdir, bind, get, ret. cbv beta iota.
    match goal with |- context [filter ?P ?l] => destruct (filter P l) end;
      [|discriminate].
    unfold raise, except_CalledProcessError. intros [= <- _]. eauto.
  - unfold bind, modify, raise, except_CalledProcessError, ret. discriminate.
Qed.

Lemma main_stages_run E args ts s :
  match download_video E (url args) (output_dir args) (quality_arg args) s with
  | (Returned (Some video_path), s1) =>
      exists start_time d s2 clipped s3,
        detect_highlights E video_path (inject_Z (duration args))
          (highlight_method args) s1 = (Returned (start_time, d), s2) /\
        create_vertical_clip E video_path
          (path_join (output_dir args) ("vertical_" +:+ ts +:+ ".mp4")) start_time d s2 =
          (Returned clipped, s3) /\
        main_stages E args ts s =
          if clipped
          then main_after_clip E args ts
                 (path_join (output_dir args) ("vertical_" +:+ ts +:+ ".mp4"))
                 start_time d s3
          else (Raised (SystemExit 1), s3)
  | (Returned None, s1) => main_stages E args ts s = (Raised (SystemExit 1), s1)
  | (Raised e, s1) => main_stages E args ts s = (Raised e, s1)
  end.
Proof.
  destruct (download_video E _ _ _ s) as [[[video_path|]|e] s1] eqn:Hdl;
    [|unfold main_stages, bind; by rewrite Hdl..].
  destruct (detect_highlights_returns E video_path (inject_Z (duration args))
              (highlight_method args) s1) as (start_time & d & s2 & Hd).
  destruct (create_vertical_clip_returns E video_path
              (path_join (output_dir args) ("vertical_" +:+ ts +:+ ".mp4"))
              start_time d s2) as (clipped & s3 & Hc).
  exists start_time, d, s2, clipped, s3. split; [done|]. split; [done|].
  unfold main_stages, bind. rewrite Hdl, Hd, Hc. by destruct clipped.
Qed.






(** C7, at the failing input: a run in which the download, the clip,
    the subtitles and the captions go through and both thumbnail
    commands fail.  [main] returns; no thumbnail file exists; the
    metadata names the thumbnail path all the same, while its
    [subtitles] entry is the one that depends on the file being
    there. *)
Theorem main_names_missing_thumbnail :
  exists s' m,
    main (with_ffmpeg (λ c, if writes_png c then ExitNonZero "Output file is empty"
                            else Exit0) sample_env)
      sample_args fresh_sys = (Returned tt, s') /\
    drop 9 (ran s') =
      [(thumb_cmd "./output/final_20260101_120000.mp4"
          "./output/thumbnail_20260101_120000.png" 10, false);
       (thumb_cmd2 "./output/final_20260101_120000.mp4"
          "./output/thumbnail_20260101_120000.png", false)] /\
    fs s' !! "./output/thumbnail_20260101_120000.png" = None /\
    fs s' !! "./output/metadata_20260101_120000.json" = Some (Json m) /\
    thumbnail (files m) = "./output/thumbnail_20260101_120000.png" /\
    subtitles (files m) = Some "./output/subtitles_20260101_120000.srt".
Proof.
  do 2 eexists. split; [vm_compute; reflexivity|].
  repeat split; vm_compute; reflexivity.
Qed.

(** ** The scenarios of the specification, run *)

Example midpoint_300_60 : (midpoint 300 60 == 120)%Q.
Proof. reflexivity. Qed.

Example midpoint_30_60 : midpoint 30 60 = 0%Q.
Proof. reflexivity. Qed.

Example format_time_3725_5 : format_time (7451 # 2) = "01:02:05,500".
Proof. vm_compute. reflexivity. Qed.

Example escape_path_colon : escape_path "C:\tmp\a.srt" = "C\:\\tmp\\a.srt".
Proof. vm_compute. reflexivity. Qed.

Example main_sample_exit :
  exit_code (fst (main sample_env sample_args fresh_sys)) = 0.
Proof. vm_compute. reflexivity. Qed.

Example main_without_ffmpeg_exit :
  exit_code (fst (main (with_ffmpeg (λ _, ExitNonZero "Conversion failed") sample_env)
                    sample_args fresh_sys)) = 1.
Proof. vm_compute. reflexivity. Qed.


(** * Further properties of the script *)

(** ** [check_dependencies] and the start of [main] *)

(** [check_dependencies] looks for both tools, the second one also
    when the first is missing, and returns [True] exactly when both
    are found. *)
Lemma check_dependencies_run E s :
  check_dependencies E s =
    (Returned (which E "yt-dlp" && which E "ffmpeg"),
     log_run [Str "which"; Str "ffmpeg"] (which E "ffmpeg")
       (log_run [Str "which"; Str "yt-dlp"] (which E "yt-dlp") s)).
Proof.
  unfold check_dependencies, find_missing, run_which. py_unfold.
  destruct (which E "yt-dlp"), (which E "ffmpeg"); reflexivity.
Qed.

(** X1: when one of the two tools is missing, [main] exits with
    status 1 after the two look-ups: nothing is downloaded, probed or
    encoded, and the file system is as it was. *)
Theorem main_missing_dependency E args s :
  which E "yt-dlp" && which E "ffmpeg" = false ->
  exists s',
    main E args s = (Raised (SystemExit 1), s') /\
    exit_code (fst (main E args s)) = 1 /\
    fs s' = fs s /\
    runs_since s s' =
      [([Str "which"; Str "yt-dlp"], which E "yt-dlp");
       ([Str "which"; Str "ffmpeg"], which E "ffmpeg")].
Proof.
  intros Hmissing. unfold main, bind. rewrite check_dependencies_run, Hmissing.
  cbn [negb]. eexists. split; [reflexivity|]. split; [reflexivity|].
  split; [reflexivity|].
  apply runs_since_app. cbn [ran log_run]. by rewrite <- app_assoc.
Qed.

Lemma main_missing_dependency_witness :
  exists s',
    main (with_which (λ c, String.eqb c "yt-dlp") sample_env) sample_args fresh_sys
      = (Raised (SystemExit 1), s') /\
    exit_code (fst (main (with_which (λ c, String.eqb c "yt-dlp") sample_env)
                      sample_args fresh_sys)) = 1 /\
    fs s' = fs fresh_sys /\
    runs_since fresh_sys s' =
      [([Str "which"; Str "yt-dlp"], true); ([Str "which"; Str "ffmpeg"], false)].
Proof.
  exact (main_missing_dependency (with_which (λ c, String.eqb c "yt-dlp") sample_env)
           sample_args fresh_sys eq_refl).
Defined.


(** ** [download_video] *)

Lemma strip_prefix_app p s name :
  strip_prefix p s = Some name -> s = p +:+ name.
Proof.
  revert s. induction p as [|a p IH]; intros [|b s] H; cbn in H; try discriminate.
  - by injection H as <-.
  - by injection H as <-.
  - destruct (Ascii.eqb_spec a b) as [->|]; [|discriminate].
    change (String b s = String b (p +:+ name)). f_equal. by apply IH.
Qed.

Lemma first_existing_found candidates s p s' :
  first_existing candidates s = (Returned (Some p), s') ->
  s' = s /\ p ∈ candidates /\ is_Some (fs s !! p).
Proof.
  induction candidates as [|c rest IH]; [discriminate|].
  cbn [first_existing]. unfold bind. rewrite path_exists_run.
  destruct (bool_decide (is_Some (fs s !! c))) eqn:Hc.
  - intros [= <- <-]. apply bool_decide_eq_true in Hc.
    split; [done|]. split; [apply elem_of_cons; by left | done].
  - intros H. destruct (IH H) as (Hs & Hin & Hex).
    split; [done|]. split; [apply elem_of_cons; by right | done].
Qed.

Lemma first_existing_head c rest s :
  is_Some (fs s !! c) -> first_existing (c :: rest) s = (Returned (Some c), s).
Proof.
  intros Hc. cbn [first_existing]. unfold bind. rewrite path_exists_run.
  by rewrite bool_decide_true.
Qed.

(** The state after a download that completed. *)
Lemma run_yt_dlp_Exit0 E c dir s :
  yt_dlp E c = Exit0 ->
  run_yt_dlp E c dir s =
    (Returned tt,
     set_fs (λ m, foldr (λ name, <[path_join dir name := Blob]>) m (yt_dlp_files E c))
       (log_run c true s)).
Proof. intros H. unfold run_yt_dlp. rewrite H. reflexivity. Qed.

Lemma foldr_insert_present (dir : string) (names : list string)
    (m : gmap string content) p :
  is_Some (m !! p) ->
  is_Some (foldr (λ name, <[path_join dir name := Blob]>) m names !! p).
Proof.
  intros Hp. induction names as [|n names IH]; [done|].
  cbn [foldr]. rewrite lookup_insert_is_Some.
  destruct (decide (path_join dir n = p)); auto.
Qed.



(** X3: a path that [download_video] returns names a file that
    exists, in the output directory, whose name starts with
    [original.]. *)
Theorem download_video_found E u dir q s p s' :
  download_video E u dir q s = (Returned (Some p), s') ->
  is_Some (fs s' !! p) /\
  exists name, p = path_join dir name /\ String.prefix "original." name = true.
Proof.
  unfold download_video, try_except. unfold bind at 1.
  destruct (yt_dlp E (download_cmd u dir q)) eqn:Hdl.
  - rewrite (run_yt_dlp_Exit0 _ _ _ _ Hdl). unfold bind at 1.
    match goal with |- context [first_existing ?l ?st] =>
      destruct (first_existing_returns l st) as [found Hfirst]; rewrite Hfirst end.
    destruct found as [found|].
    + apply first_existing_found in Hfirst as (_ & Hin & Hex).
      unfold ret. intros [= <- <-]. split; [done|].
      cbn in Hin.
      repeat (apply elem_of_cons in Hin as [->|Hin]); [eauto..|].
      by apply elem_of_nil in Hin.
    + unfold listdir, bind, get, ret. cbv beta iota.
      match goal with |- context [filter ?P ?l] =>
        destruct (filter P l) as [|file rest] eqn:Hfilter end; [discriminate|].
      intros [= <- <-].
      assert (Hin : file ∈ file :: rest) by (apply elem_of_cons; by left).
      rewrite <- Hfilter in Hin. apply list_elem_of_filter in Hin as [Hpre Hin].
      apply list_elem_of_omap in Hin as ([path c] & Hentry & Hname).
      apply elem_of_map_to_list in Hentry. cbn [fst] in Hname.
      destruct (strip_prefix (dir +:+ "/") path) as [name|] eqn:Hstrip; [|discriminate].
      destruct (has_slash name); [discriminate|]. injection Hname as ->.
      apply strip_prefix_app in Hstrip.
      assert (Hpath : path = path_join dir file).
      { rewrite Hstrip. unfold path_join. by rewrite string_app_assoc. }
      split; [rewrite <- Hpath; eauto | eauto].
  - unfold run_yt_dlp. rewrite Hdl. unfold bind, modify, raise, except_CalledProcessError, ret.
    discriminate.
Qed.

Lemma download_video_found_witness :
  is_Some (fs (snd (download_video sample_env "https://youtu.be/a1b2c3" "./output" "1080p"
                      fresh_sys)) !! "./output/original.mp4") /\
  exists name, "./output/original.mp4" = path_join "./output" name /\
               String.prefix "original." name = true.
Proof.
  exact (download_video_found sample_env "https://youtu.be/a1b2c3" "./output" "1080p"
           fresh_sys "./output/original.mp4" _ eq_refl).
Defined.

(** X4: a file [original.mp4] that is already in the output directory
    is what [download_video] returns when [yt-dlp] completes, whatever
    [yt-dlp] has written this time. *)
Theorem download_video_prefers_existing_mp4 E u dir q s :
  yt_dlp E (download_cmd u dir q) = Exit0 ->
  is_Some (fs s !! path_join dir "original.mp4") ->
  exists s',
    download_video E u dir q s = (Returned (Some (path_join dir "original.mp4")), s').
Proof.
  intros Hdl Hstale. unfold download_video, try_except. unfold bind at 1.
  rewrite (run_yt_dlp_Exit0 _ _ _ _ Hdl). unfold bind at 1.
  cbn [map]. change ("original" +:+ ".mp4") with "original.mp4".
  rewrite first_existing_head; [eauto|].
  cbn [fs set_fs log_run]. by apply foldr_insert_present.
Qed.

Lemma download_video_prefers_existing_mp4_witness :
  exists s',
    download_video (with_yt_dlp Exit0 ["original.webm"] sample_env)
      "https://youtu.be/a1b2c3" "./output" "1080p"
      (set_fs (<["./output/original.mp4" := Blob]>) fresh_sys)
    = (Returned (Some (path_join "./output" "original.mp4")), s').
Proof.
  exact (download_video_prefers_existing_mp4
           (with_yt_dlp Exit0 ["original.webm"] sample_env)
           "https://youtu.be/a1b2c3" "./output" "1080p"
           (set_fs (<["./output/original.mp4" := Blob]>) fresh_sys)
           eq_refl ltac:(eexists; reflexivity)).
Defined.


(** ** [detect_highlights] *)

Lemma detect_highlights_value E p d method s :
  exists s',
    detect_highlights E p d method s =
      (Returned (if HAS_OPENCV E then midpoint (probed_duration E p) d
                 else probed_duration E p, d), s').
Proof.
  destruct (HAS_OPENCV E) eqn:Hcv.
  - by apply detect_highlights_with_opencv.
  - rewrite detect_highlights_fallback_run by done. eauto.
Qed.

(** X5: the window that [detect_highlights] returns does not depend on
    the method: [audio], [face], [motion] or any other name give the
    same start and the same duration, and the duration is the one that
    was asked for. *)
Theorem detect_highlights_method_irrelevant E p d method1 method2 s :
  fst (detect_highlights E p d method1 s) = fst (detect_highlights E p d method2 s) /\
  exists start_time, fst (detect_highlights E p d method1 s) = Returned (start_time, d).
Proof.
  destruct (detect_highlights_value E p d method1 s) as [s1 ->].
  destruct (detect_highlights_value E p d method2 s) as [s2 ->].
  split; [reflexivity | eauto].
Qed.

Lemma midpoint_fits (total d : Q) : (d <= total)%Q -> (midpoint total d == (total - d) / 2)%Q.
Proof.
  intros Hle. unfold midpoint, max0.
  destruct (Qle_bool ((total - d) / 2) 0) eqn:Hsign; [|reflexivity].
  apply Qle_bool_iff in Hsign.
  assert (0 <= (total - d) / 2)%Q by (apply Qle_shift_div_l; [reflexivity | lra]).
  lra.
Qed.

(** X6: with OpenCV present and a window no longer than the duration
    that [get_video_duration] reports, the window that
    [detect_highlights] returns lies inside the source and is centred:
    the start is not negative, the end is not past the total duration,
    and the part of the source before the window is as long as the
    part after it. *)
Theorem detect_highlights_centred E p d method s total s1 :
  HAS_OPENCV E = true ->
  get_video_duration E p s = (Returned total, s1) ->
  (d <= total)%Q ->
  exists start_time s',
    detect_highlights E p d method s = (Returned (start_time, d), s') /\
    (0 <= start_time)%Q /\
    (start_time + d <= total)%Q /\
    (start_time == total - (start_time + d))%Q.
Proof.
  intros Hcv Hprobe Hle.
  rewrite get_video_duration_total in Hprobe. injection Hprobe as Htotal _.
  destruct (detect_highlights_with_opencv E p d method s Hcv) as [s' Hs'].
  rewrite Htotal in Hs'. exists (midpoint total d), s'. split; [done|].
  pose proof (midpoint_fits total d Hle) as Hmid.
  assert (Hhalf : ((total - d) / 2 == (total - d) * (1 # 2))%Q) by reflexivity.
  rewrite Hhalf in Hmid.
  repeat split; rewrite Hmid; lra.
Qed.

Lemma detect_highlights_centred_witness :
  exists start_time s',
    detect_highlights sample_env "video.mp4" 60%Q "motion" fresh_sys
      = (Returned (start_time, 60%Q), s') /\
    (0 <= start_time)%Q /\
    (start_time + 60 <= 300)%Q /\
    (start_time == 300 - (start_time + 60))%Q.
Proof.
  exact (detect_highlights_centred sample_env "video.mp4" 60%Q "motion" fresh_sys 300%Q
           _ eq_refl eq_refl ltac:(discriminate)).
Defined.

(** ** [detect_audio_highlights] *)

(** X7: [detect_audio_highlights] removes its temporary audio file
    only when the extraction and the reading of the audio both
    succeed; when either fails, the file, which the function has
    created, is still there when it returns. *)
Theorem detect_audio_highlights_tmp_file E p d s :
  exists r s',
    detect_audio_highlights E p d s = (Returned r, s') /\
    (fs s' !! tmp_wav E = None <->
     ffmpeg E (extract_audio_cmd p (tmp_wav E)) = Exit0 /\
     wave_readable E (tmp_wav E) = true).
Proof.
  unfold detect_audio_highlights, NamedTemporaryFile, write_file.
  unfold bind at 1 2, modify at 1, ret at 1. fold (tmp_wav E).
  unfold try_except. unfold bind at 1.
  destruct (ffmpeg E (extract_audio_cmd p (tmp_wav E))) as [|err] eqn:Hff.
  - rewrite (run_ffmpeg_Exit0 _ _ _ Hff). unfold bind at 1, read_wave.
    destruct (wave_readable E (tmp_wav E)) eqn:Hwave.
    + unfold ret at 1. unfold bind at 1.
      rewrite unlink_present
        by (apply fs_completed_run_present; cbn; rewrite lookup_insert_eq; eauto).
      unfold bind, ret. rewrite get_video_duration_total.
      do 2 eexists. split; [reflexivity|]. cbn [fs set_fs log_run].
      rewrite lookup_delete_eq. done.
    + unfold raise, except_all, bind, ret. rewrite get_video_duration_total.
      do 2 eexists. split; [reflexivity|]. cbn [fs set_fs log_run].
      split; [|intros [_ ?]; discriminate].
      intros Hgone. exfalso.
      assert (Hthere : is_Some (fs (completed_run (extract_audio_cmd p (tmp_wav E))
                                      (set_fs <[tmp_wav E:=Text ""]> s)) !! tmp_wav E)).
      { apply fs_completed_run_present. cbn. rewrite lookup_insert_eq. eauto. }
      rewrite Hgone in Hthere. by destruct Hthere.
  - rewrite (run_ffmpeg_ExitNonZero _ _ _ _ Hff).
    unfold except_all, bind, ret. rewrite get_video_duration_total.
    do 2 eexists. split; [reflexivity|]. cbn [fs set_fs log_run].
    split; [|intros [? _]; discriminate].
    intros Hgone. exfalso.
    assert (Hthere : is_Some (fs (failed_run E (extract_audio_cmd p (tmp_wav E))
                                    (set_fs <[tmp_wav E:=Text ""]> s)) !! tmp_wav E)).
    { apply fs_failed_run_present. cbn. rewrite lookup_insert_eq. eauto. }
    rewrite Hgone in Hthere. by destruct Hthere.
Qed.


(** ** [generate_thumbnail] *)


(** ** [burn_subtitles] *)

Lemma burn_subtitles_missing_srt_aux E video_path srt_path output_path s :
  fs s !! srt_path = None ->
  burn_subtitles E video_path srt_path output_path s = (Returned false, s).
Proof.
  intros Hsrt. unfold burn_subtitles, bind. rewrite path_exists_run, Hsrt.
  by rewrite bool_decide_false by (intros [? ?]; discriminate).
Qed.

(** X9: without a subtitle file [burn_subtitles] returns [False] at
    once: no temporary file is created, no command is run, the file
    system is as it was. *)
Theorem burn_subtitles_missing_srt E video_path srt_path output_path s :
  fs s !! srt_path = None ->
  burn_subtitles E video_path srt_path output_path s = (Returned false, s).
Proof. apply burn_subtitles_missing_srt_aux. Qed.

Lemma burn_subtitles_missing_srt_witness :
  burn_subtitles sample_env "clip.mp4" "clip.srt" "final.mp4" fresh_sys
    = (Returned false, fresh_sys).
Proof.
  exact (burn_subtitles_missing_srt sample_env "clip.mp4" "clip.srt" "final.mp4"
           fresh_sys eq_refl).
Defined.

Lemma fs_staged_ne tmp c s p : p ≠ tmp -> fs (staged tmp c s) !! p = fs s !! p.
Proof. intros Hp. unfold staged. cbn [fs set_fs]. by rewrite !lookup_insert_ne. Qed.

Lemma burn_subtitles_frame_aux E video_path srt_path output_path s r s' p :
  burn_subtitles E video_path srt_path output_path s = (r, s') ->
  p ≠ output_path ->
  p ≠ tmp_srt E ->
  fs s' !! p = fs s !! p.
Proof.
  intros Hrun Hout Htmp.
  destruct (fs s !! srt_path) as [c0|] eqn:Hsrt.
  - destruct (burn_subtitles_run E video_path srt_path output_path c0 s Hsrt) as [c Hc].
    cbv zeta in Hc. rewrite Hc in Hrun. clear Hc.
    destruct (ffmpeg E (cmd1 _ _ _)); [|destruct (ffmpeg E (cmd2 _ _ _));
      [|destruct (ffmpeg E (cmd3 _ _))]];
      injection Hrun as <- <-; cbn [fs set_fs];
      rewrite lookup_delete_ne by done;
      rewrite ?fs_completed_run, ?lookup_insert_ne, ?fs_failed_run_ne by done;
      by apply fs_staged_ne.
  - rewrite (burn_subtitles_missing_srt_aux E video_path srt_path output_path s Hsrt) in Hrun.
    by injection Hrun as <- <-.
Qed.

(** X10: whatever the attempts do, [burn_subtitles] changes no file
    but the one at the output path and its own temporary file: the
    clip it reads and every other file are as they were. *)
Theorem burn_subtitles_frame E video_path srt_path output_path s r s' p :
  burn_subtitles E video_path srt_path output_path s = (r, s') ->
  p ≠ output_path ->
  p ≠ tmp_srt E ->
  fs s' !! p = fs s !! p.
Proof. apply burn_subtitles_frame_aux. Qed.

Lemma burn_subtitles_frame_witness :
  fs (snd (burn_subtitles failing_env "clip.mp4" "clip.srt" "final.mp4" srt_sys))
    !! "clip.srt" = fs srt_sys !! "clip.srt".
Proof.
  exact (burn_subtitles_frame failing_env "clip.mp4" "clip.srt" "final.mp4" srt_sys
           _ _ "clip.srt" (surjective_pairing _)
           ltac:(discriminate) ltac:(discriminate)).
Defined.


(** ** The stages of [main], once more *)

Lemma output_of_thumb_cmd v img t : output_of (thumb_cmd v img t) = img.
Proof. reflexivity. Qed.

Lemma output_of_thumb_cmd2 v img : output_of (thumb_cmd2 v img) = img.
Proof. reflexivity. Qed.

Lemma generate_thumbnail_outputs E video_path output_image time_sec s b s' c ok :
  generate_thumbnail E video_path output_image time_sec s = (Returned b, s') ->
  (c, ok) ∈ runs_since s s' ->
  output_of c = output_image.
Proof.
  rewrite generate_thumbnail_run. intros Hrun.
  destruct (ffmpeg E (thumb_cmd _ _ _)); [|destruct (ffmpeg E (thumb_cmd2 _ _))];
    injection Hrun as <- <-;
    (erewrite runs_since_app by (ran_norm; reflexivity));
    intros Hin; repeat (apply elem_of_cons in Hin as [[= -> ->]|Hin]);
    try reflexivity; by apply elem_of_nil in Hin.
Qed.

Lemma subtitle_stage_idle E args ts vertical_path s :
  HAS_WHISPER E = false \/ transcribe E vertical_path (subtitle_lang args) = None ->
  subtitle_stage E args ts vertical_path s = (Returned tt, s).
Proof.
  intros Hidle. unfold subtitle_stage.
  destruct (HAS_WHISPER E) eqn:Hw; [|reflexivity].
  destruct Hidle as [|Hnone]; [discriminate|].
  unfold bind. rewrite generate_subtitles_run, Hnone by done. reflexivity.
Qed.

(** The metadata that [record_stage] writes. *)
Lemma record_stage_metadata E args ts vertical_path final_path start_time d s :
  exists s' srt_present,
    record_stage E args ts vertical_path final_path start_time d s = (Returned tt, s') /\
    fs s' !! metadata_path_of args ts =
      Some (Json
        {| original_url := url args;
           clip_start := start_time;
           clip_duration := d;
           files := {| vertical_clip := vertical_path;
                       final_clip := final_path;
                       thumbnail := thumbnail_path_of args ts;
                       subtitles := if srt_present : bool
                                    then Some (srt_path_of args ts) else None |};
           timestamp := ts;
           quality := quality_arg args |}) /\
    (srt_present = true <-> is_Some (fs s' !! srt_path_of args ts)) /\
    (forall c ok, (c, ok) ∈ runs_since s s' -> output_of c = thumbnail_path_of args ts) /\
    (forall p, p ≠ thumbnail_path_of args ts -> p ≠ metadata_path_of args ts ->
               fs s' !! p = fs s !! p).
Proof.
  unfold metadata_path_of, srt_path_of, thumbnail_path_of.
  unfold record_stage. unfold bind at 1.
  destruct (generate_thumbnail_returns E final_path
              (path_join (output_dir args) ("thumbnail_" +:+ ts +:+ ".png")) 10 s)
    as (b & s1 & Hthumb).
  rewrite Hthumb.
  unfold bind, write_file, modify. rewrite path_exists_run.
  do 2 eexists. split; [reflexivity|]. cbn [fs set_fs].
  rewrite lookup_insert_eq. split; [reflexivity|].
  split; [|split].
  - rewrite lookup_insert_ne by (apply path_join_ne; discriminate).
    split; [apply bool_decide_eq_true | intros; by apply bool_decide_eq_true].
  - intros c ok Hin. by eapply generate_thumbnail_outputs.
  - intros p Hp1 Hp2. rewrite lookup_insert_ne by done.
    by eapply generate_thumbnail_frame.
Qed.

(** X11: when no subtitle file comes out of the subtitle stage,
    because Whisper is absent or because the transcription fails, and
    none was there before, [main] runs no caption command at all: the
    only commands after the clip are those of the thumbnail, the
    metadata names the vertical clip as the final clip and gives
    [None] for the subtitles. *)
Theorem main_without_subtitles E args ts vertical_path start_time d s :
  HAS_WHISPER E = false \/ transcribe E vertical_path (subtitle_lang args) = None ->
  fs s !! srt_path_of args ts = None ->
  exists s' m,
    main_after_clip E args ts vertical_path start_time d s = (Returned tt, s') /\
    fs s' !! metadata_path_of args ts = Some (Json m) /\
    final_clip (files m) = vertical_path /\
    subtitles (files m) = None /\
    (forall c ok, (c, ok) ∈ runs_since s s' -> output_of c = thumbnail_path_of args ts).
Proof.
  intros Hidle Hsrt.
  destruct (record_stage_metadata E args ts vertical_path vertical_path start_time d s)
    as (s' & srt_present & Hrec & Hmeta & Hpresent & Hruns & Hframe).
  exists s'. eexists.
  unfold main_after_clip. unfold bind at 1. rewrite subtitle_stage_idle by done.
  unfold bind at 1, caption_stage. unfold bind at 1. rewrite path_exists_run.
  unfold srt_path_of in Hsrt. rewrite Hsrt.
  rewrite bool_decide_false by (intros [? ?]; discriminate).
  unfold bind at 1, ret at 1. unfold bind at 1. rewrite path_exists_run.
  assert (Hfinal : (if negb (bool_decide (is_Some (fs s !! vertical_path)))
                    then ret vertical_path else ret vertical_path) s
                   = (Returned vertical_path, s)) by by destruct (bool_decide _).
  rewrite Hfinal, Hrec. split; [done|]. split; [exact Hmeta|].
  split; [done|]. split; [|done].
  destruct srt_present; [|done].
  destruct Hpresent as [Hp _]. specialize (Hp eq_refl).
  rewrite Hframe in Hp by (apply path_join_ne; discriminate).
  unfold srt_path_of in Hp. rewrite Hsrt in Hp. by destruct Hp.
Qed.

Lemma main_without_subtitles_witness :
  exists s' m,
    main_after_clip (with_whisper false sample_env) sample_args "20260101_120000"
      "./output/vertical_20260101_120000.mp4" 120 60 fresh_sys = (Returned tt, s') /\
    fs s' !! metadata_path_of sample_args "20260101_120000" = Some (Json m) /\
    final_clip (files m) = "./output/vertical_20260101_120000.mp4" /\
    subtitles (files m) = None /\
    (forall c ok, (c, ok) ∈ runs_since fresh_sys s' ->
                  output_of c = thumbnail_path_of sample_args "20260101_120000").
Proof.
  exact (main_without_subtitles (with_whisper false sample_env) sample_args
           "20260101_120000" "./output/vertical_20260101_120000.mp4" 120%Q 60%Q
           fresh_sys (or_introl eq_refl) eq_refl).
Defined.

(** X12: an engine that returns no segment still makes the stage
    write an (empty) subtitle file, and since [main] looks only at the
    existence of that file, the caption stage goes on to run the plain
    caption command. *)
Theorem empty_transcript_is_burnt E args ts s :
  HAS_WHISPER E = true ->
  transcribe E (vertical_path_of args ts) (subtitle_lang args) = Some [] ->
  exists s1 final_path s2 ok rest,
    subtitle_stage E args ts (vertical_path_of args ts) s = (Returned tt, s1) /\
    fs s1 !! srt_path_of args ts = Some (Text "") /\
    caption_stage E args ts (vertical_path_of args ts) s1 = (Returned final_path, s2) /\
    runs_since s1 s2 =
      (cmd1 (vertical_path_of args ts) (escape_path (tmp_srt E)) (final_path_of args ts), ok)
      :: rest.
Proof.
  intros Hw Hempty. unfold vertical_path_of, srt_path_of, final_path_of in *.
  set (vertical_path := path_join (output_dir args) ("vertical_" +:+ ts +:+ ".mp4")) in *.
  set (srt_path := path_join (output_dir args) ("subtitles_" +:+ ts +:+ ".srt")).
  set (final_path := path_join (output_dir args) ("final_" +:+ ts +:+ ".mp4")).
  assert (Hsub : subtitle_stage E args ts vertical_path s
                 = (Returned tt, set_fs (<[srt_path := Text ""]>) s)).
  { unfold subtitle_stage. rewrite Hw. unfold bind.
    rewrite generate_subtitles_run by done. by rewrite Hempty. }
  assert (Hsrt : fs (set_fs (<[srt_path := Text ""]>) s) !! srt_path = Some (Text ""))
    by apply lookup_insert_eq.
  destruct (burn_subtitles_run E vertical_path srt_path final_path _ _ Hsrt) as [c Hburn].
  cbv zeta in Hburn.
  exists (set_fs (<[srt_path := Text ""]>) s).
  unfold caption_stage. fold srt_path final_path.
  unfold bind at 1. rewrite path_exists_run, Hsrt.
  rewrite bool_decide_true by eauto.
  unfold bind at 1 2. rewrite Hburn. clear Hburn.
  destruct (ffmpeg E (cmd1 _ _ _)); [|destruct (ffmpeg E (cmd2 _ _ _));
    [|destruct (ffmpeg E (cmd3 _ _))]];
    cbn [negb]; unfold ret at 1; unfold bind; rewrite path_exists_run;
    match goal with |- context [bool_decide ?P] => destruct (bool_decide P) end;
    cbn [negb]; unfold ret;
    do 4 eexists; (split; [exact Hsub|]); (split; [reflexivity|]);
    (split; [reflexivity|]);
    (erewrite runs_since_app by (ran_norm; reflexivity)); reflexivity.
Qed.

Lemma empty_transcript_is_burnt_witness :
  exists s1 final_path s2 ok rest,
    subtitle_stage (with_transcribe (Some []) sample_env) sample_args "20260101_120000"
      (vertical_path_of sample_args "20260101_120000") fresh_sys = (Returned tt, s1) /\
    fs s1 !! srt_path_of sample_args "20260101_120000" = Some (Text "") /\
    caption_stage (with_transcribe (Some []) sample_env) sample_args "20260101_120000"
      (vertical_path_of sample_args "20260101_120000") s1 = (Returned final_path, s2) /\
    runs_since s1 s2 =
      (cmd1 (vertical_path_of sample_args "20260101_120000")
         (escape_path (tmp_srt (with_transcribe (Some []) sample_env)))
         (final_path_of sample_args "20260101_120000"), ok) :: rest.
Proof.
  exact (empty_transcript_is_burnt (with_transcribe (Some []) sample_env) sample_args
           "20260101_120000" fresh_sys eq_refl eq_refl).
Defined.


Lemma create_vertical_clip_true E input_path output_path start_time d s s' :
  create_vertical_clip E input_path output_path start_time d s = (Returned true, s') ->
  fs s' !! output_path = Some (Media (clip_cmd input_path output_path start_time d) true).
Proof.
  unfold create_vertical_clip, run_ffmpeg, leftover, write_file.
  py_unfold.
  destruct (ffprobe_size E _) as [[w h]| |]; cbn;
    (destruct (ffmpeg E _); cbn;
     [| destruct (ffmpeg_partial E _); cbn; discriminate]);
    intros [= <-]; cbn; apply lookup_insert_eq.
Qed.

(** What the caption stage hands on is the vertical clip or the final
    path, the latter only when a file is there; the stage changes only
    the final path and the temporary caption file. *)
Lemma caption_stage_result E args ts vertical_path s final_path s' :
  caption_stage E args ts vertical_path s = (Returned final_path, s') ->
  (final_path = vertical_path \/
   final_path = final_path_of args ts /\ is_Some (fs s' !! final_path_of args ts)) /\
  (forall p, p ≠ final_path_of args ts -> p ≠ tmp_srt E -> fs s' !! p = fs s !! p).
Proof.
  unfold final_path_of, caption_stage. unfold bind at 1. rewrite path_exists_run.
  destruct (bool_decide (is_Some (fs s !! _))).
  - unfold bind at 1 2.
    destruct (burn_subtitles_returns E vertical_path
                (path_join (output_dir args) ("subtitles_" +:+ ts +:+ ".srt"))
                (path_join (output_dir args) ("final_" +:+ ts +:+ ".mp4")) s)
      as (b & s1 & Hburn).
    rewrite Hburn.
    assert (Hframe : forall p,
              p ≠ path_join (output_dir args) ("final_" +:+ ts +:+ ".mp4") ->
              p ≠ tmp_srt E -> fs s1 !! p = fs s !! p).
    { intros p Hp1 Hp2. by eapply burn_subtitles_frame_aux. }
    destruct b; cbn [negb]; unfold ret at 1; unfold bind; rewrite path_exists_run;
      match goal with |- context [bool_decide ?P] =>
        destruct (bool_decide P) eqn:Hex end;
      cbn [negb]; unfold ret; intros [= <- <-]; (split; [|done]); auto.
    right. split; [done|]. by apply bool_decide_eq_true in Hex.
  - unfold bind, ret. rewrite path_exists_run.
    destruct (bool_decide _); cbn [negb]; intros [= <- <-]; auto.
Qed.

(** X13: when [main] returns, so that the process exits with 0, the
    metadata file has been written, with the URL, the quality and the
    requested duration of the command line; the vertical clip it names
    exists; the final clip it names is the vertical clip or the
    captioned one and exists; and its [subtitles] entry names the
    subtitle file exactly when that file exists. *)
Theorem main_success_artifacts E args s s' :
  main E args s = (Returned tt, s') ->
  exists m,
    fs s' !! metadata_path_of args (now E) = Some (Json m) /\
    original_url m = url args /\
    quality m = quality_arg args /\
    timestamp m = now E /\
    clip_duration m = inject_Z (duration args) /\
    vertical_clip (files m) = vertical_path_of args (now E) /\
    (final_clip (files m) = vertical_path_of args (now E) \/
     final_clip (files m) = final_path_of args (now E)) /\
    is_Some (fs s' !! vertical_clip (files m)) /\
    is_Some (fs s' !! final_clip (files m)) /\
    (subtitles (files m) = Some (srt_path_of args (now E)) /\
       is_Some (fs s' !! srt_path_of args (now E)) \/
     subtitles (files m) = None /\ fs s' !! srt_path_of args (now E) = None).
Proof.
  intros Hmain. unfold main in Hmain. unfold bind at 1 in Hmain.
  rewrite check_dependencies_run in Hmain.
  destruct (which E "yt-dlp" && which E "ffmpeg"); cbn [negb] in Hmain; [|discriminate].
  set (ts := now E) in *.
  match type of Hmain with main_stages E args ts ?st = _ => set (s0 := st) in * end.
  pose proof (main_stages_run E args ts s0) as Hstages.
  destruct (download_video E _ _ _ s0) as [[[video_path|]|e] s1];
    [|rewrite Hstages in Hmain; discriminate..].
  destruct Hstages as (start_time & d & s2 & clipped & s3 & Hd & Hclip & Hstages).
  rewrite Hstages in Hmain. clear Hstages.
  destruct clipped; [|discriminate].
  destruct (detect_highlights_value E video_path (inject_Z (duration args))
              (highlight_method args) s1) as [s2' Hvalue].
  rewrite Hvalue in Hd. injection Hd as _ <- _. clear Hvalue s2'.
  apply create_vertical_clip_true in Hclip.
  fold (vertical_path_of args ts) in Hclip, Hmain.
  set (vertical_path := vertical_path_of args ts) in *.
  unfold main_after_clip in Hmain. unfold bind at 1 in Hmain.
  destruct (subtitle_stage_returns E args ts vertical_path s3) as (s4 & Hsub).
  rewrite Hsub in Hmain. unfold bind at 1 in Hmain.
  destruct (caption_stage_returns E args ts vertical_path s4) as (final_path & s5 & Hcap).
  rewrite Hcap in Hmain.
  destruct (record_stage_metadata E args ts vertical_path final_path start_time
              (inject_Z (duration args)) s5)
    as (s6 & srt_present & Hrec & Hmeta & Hpresent & _ & Hframe6).
  rewrite Hrec in Hmain. injection Hmain as <-.
  destruct (caption_stage_result _ _ _ _ _ _ _ Hcap) as [Hfinal Hframe5].
  assert (Hv4 : fs s4 !! vertical_path = fs s3 !! vertical_path).
  { apply (subtitle_stage_frame _ _ _ _ _ _ _ Hsub). apply path_join_ne. discriminate. }
  assert (Hv5 : fs s5 !! vertical_path = fs s4 !! vertical_path).
  { apply Hframe5; [apply vertical_ne_final | apply clip_ne_tmp_srt]. }
  assert (Hv6 : is_Some (fs s6 !! vertical_path)).
  { rewrite Hframe6 by (apply path_join_ne; discriminate).
    rewrite Hv5, Hv4, Hclip. eauto. }
  eexists. split; [exact Hmeta|]. cbn [original_url quality timestamp clip_duration
    files vertical_clip final_clip subtitles].
  do 5 (split; [reflexivity|]).
  split; [destruct Hfinal as [->| [-> _]]; auto|].
  split; [exact Hv6|].
  split.
  - destruct Hfinal as [->| [-> Hex]]; [exact Hv6|].
    by rewrite Hframe6 by (apply path_join_ne; discriminate).
  - destruct srt_present.
    + left. split; [reflexivity|]. by apply Hpresent.
    + right. split; [reflexivity|].
      destruct (fs s6 !! srt_path_of args ts) eqn:Hsrt; [|reflexivity].
      destruct Hpresent as [_ Hp]. by discriminate Hp.
Qed.

Lemma main_success_artifacts_witness :
  exists m,
    fs (snd (main sample_env sample_args fresh_sys))
      !! metadata_path_of sample_args (now sample_env) = Some (Json m) /\
    original_url m = url sample_args /\
    quality m = quality_arg sample_args /\
    timestamp m = now sample_env /\
    clip_duration m = inject_Z (duration sample_args) /\
    vertical_clip (files m) = vertical_path_of sample_args (now sample_env) /\
    (final_clip (files m) = vertical_path_of sample_args (now sample_env) \/
     final_clip (files m) = final_path_of sample_args (now sample_env)) /\
    is_Some (fs (snd (main sample_env sample_args fresh_sys)) !! vertical_clip (files m)) /\
    is_Some (fs (snd (main sample_env sample_args fresh_sys)) !! final_clip (files m)) /\
    (subtitles (files m) = Some (srt_path_of sample_args (now sample_env)) /\
       is_Some (fs (snd (main sample_env sample_args fresh_sys))
                  !! srt_path_of sample_args (now sample_env)) \/
     subtitles (files m) = None /\
       fs (snd (main sample_env sample_args fresh_sys))
         !! srt_path_of sample_args (now sample_env) = None).
Proof.
  exact (main_success_artifacts sample_env sample_args fresh_sys
           (snd (main sample_env sample_args fresh_sys)) eq_refl).
Defined.


(** ** [format_time] *)

Lemma avoids_app c (a b : string) : avoids c (a +:+ b) = avoids c a && avoids c b.
Proof.
  induction a as [|x a IH]; [reflexivity|].
  change (negb (Ascii.eqb x c) && avoids c (a +:+ b)
          = negb (Ascii.eqb x c) && avoids c a && avoids c b).
  rewrite IH. by destruct (negb (Ascii.eqb x c)).
Qed.

Lemma replace_app old new (a b : string) :
  replace old new (a +:+ b) = replace old new a +:+ replace old new b.
Proof.
  induction a as [|x a IH]; [reflexivity|].
  change (replace old new (String x (a +:+ b))
          = replace old new (String x a) +:+ replace old new b).
  cbn [replace]. rewrite IH. destruct (Ascii.eqb x old).
  - by rewrite string_app_assoc.
  - reflexivity.
Qed.

Lemma replace_avoids old new (s : string) : avoids old s = true -> replace old new s = s.
Proof.
  induction s as [|x s IH]; [reflexivity|]. cbn [avoids replace].
  destruct (Ascii.eqb x old); [discriminate|]. cbn [negb andb]. by intros ->%IH.
Qed.

Lemma avoids_zeros n : avoids "." (zeros n) = true.
Proof.
  induction n as [|n IH]; [reflexivity|].
  cbn [zeros]. rewrite avoids_app, IH. reflexivity.
Qed.

Lemma pretty_N_go_avoids_dot x : forall s,
  avoids "." s = true -> avoids "." (pretty_N_go x s) = true.
Proof.
  induction (N.lt_wf_0 x) as [x _ IH]; intros s Hs.
  assert (x = 0 \/ 0 < x)%N as [->|Hpos] by lia.
  - by rewrite pretty_N_go_0.
  - rewrite pretty_N_go_step by done. apply IH; [by apply N.div_lt|].
    cbn [avoids]. rewrite Hs. unfold pretty_N_char. by repeat case_match.
Qed.

Lemma pretty_N_avoids_dot (x : N) : avoids "." (pretty x) = true.
Proof.
  unfold pretty, pretty_N. case_decide; [reflexivity|].
  by apply pretty_N_go_avoids_dot.
Qed.

Lemma pretty_Z_avoids_dot (x : Z) : avoids "." (pretty x) = true.
Proof.
  destruct x as [|p|p]; [reflexivity|apply pretty_N_avoids_dot|].
  change (pretty (Z.neg p)) with ("-" +:+ pretty (N.pos p)).
  rewrite avoids_app, pretty_N_avoids_dot. reflexivity.
Qed.

Lemma pad_avoids_dot width (s : string) : avoids "." s = true -> avoids "." (pad width s) = true.
Proof. intros Hs. unfold pad. by rewrite avoids_app, avoids_zeros, Hs. Qed.

Lemma zfill_avoids_dot width n : avoids "." (zfill width n) = true.
Proof.
  unfold zfill. destruct (n <? 0).
  - rewrite avoids_app, pad_avoids_dot by apply pretty_Z_avoids_dot. reflexivity.
  - apply pad_avoids_dot, pretty_Z_avoids_dot.
Qed.

(** The only dot of the formatted string is the decimal point. *)
Lemma format_time_fields hours minutes (ip fp : string) :
  avoids "." ip = true -> avoids "." fp = true ->
  replace "." ","
    (zfill 2 hours +:+ ":" +:+ zfill 2 minutes +:+ ":" +:+ (ip +:+ "." +:+ fp))
  = zfill 2 hours +:+ ":" +:+ zfill 2 minutes +:+ ":" +:+ ip +:+ "," +:+ fp.
Proof.
  intros Hip Hfp. rewrite !replace_app.
  rewrite !(replace_avoids "." "," (zfill 2 _)) by apply zfill_avoids_dot.
  rewrite (replace_avoids "." "," ip), (replace_avoids "." "," fp) by done.
  reflexivity.
Qed.

Lemma round_half_even_comp (x y : Q) : (x == y)%Q -> round_half_even x = round_half_even y.
Proof.
  intros Hxy. unfold round_half_even.
  rewrite (Qfloor_comp _ _ Hxy).
  assert (Hr : (x - inject_Z (Qfloor y) == y - inject_Z (Qfloor y))%Q) by by rewrite Hxy.
  by rewrite (Qleb_comp _ _ Hr _ _ (Qeq_refl _)), (Qeqb_comp _ _ Hr _ _ (Qeq_refl _)).
Qed.

Lemma round_half_even_Z (z : Z) : round_half_even (inject_Z z) = z.
Proof.
  unfold round_half_even. rewrite Qfloor_Z.
  assert (Hr : (inject_Z z - inject_Z z == 0)%Q) by ring.
  by rewrite (Qleb_comp _ _ Hr _ _ (Qeq_refl _)), (Qeqb_comp _ _ Hr _ _ (Qeq_refl _)).
Qed.

Lemma floordiv_millis (a k : Z) :
  0 < k -> floordiv (a # 1000) (inject_Z k) = a / (1000 * k).
Proof.
  intros Hk. unfold floordiv. rewrite Zdiv_Qdiv. apply Qfloor_comp.
  rewrite (Qmake_Qdiv a 1000), inject_Z_mult.
  assert (~ (inject_Z k == 0)%Q).
  { intros H0. apply (inject_Z_injective k 0) in H0. lia. }
  field. done.
Qed.

Lemma pymod_millis (a k : Z) :
  0 < k -> (pymod (a # 1000) (inject_Z k) == (a mod (1000 * k)) # 1000)%Q.
Proof.
  intros Hk. unfold pymod. rewrite floordiv_millis by done.
  rewrite (Qmake_Qdiv a 1000), (Qmake_Qdiv (a mod (1000 * k)) 1000).
  rewrite (Z.mod_eq a (1000 * k)) by lia.
  unfold Z.sub. rewrite inject_Z_plus, inject_Z_opp, !inject_Z_mult.
  field.
Qed.


Lemma floordiv_comp (x y k : Q) : (x == y)%Q -> floordiv x k = floordiv y k.
Proof. intros Hxy. unfold floordiv. apply Qfloor_comp. by rewrite Hxy. Qed.

Lemma fixed3_comp (x y : Q) : (x == y)%Q -> fixed3 x = fixed3 y.
Proof.
  intros Hxy. unfold fixed3.
  assert (H : round_half_even (x * 1000) = round_half_even (y * 1000))
    by (apply round_half_even_comp; by rewrite Hxy).
  by rewrite H.
Qed.

Lemma fixed3_millis (m : Z) :
  0 <= m ->
  fixed3 (m # 1000) = pad 2 (pretty (m / 1000)) +:+ "." +:+ pad 3 (pretty (m mod 1000)).
Proof.
  intros Hm. unfold fixed3.
  assert (H : round_half_even ((m # 1000) * 1000) = m).
  { rewrite <- (round_half_even_Z m) at 2. apply round_half_even_comp.
    rewrite (Qmake_Qdiv m 1000). field. }
  rewrite H, Z.abs_eq by done.
  by replace (m <? 0) with false by (symmetry; apply Z.ltb_ge; lia).
Qed.

(** X14: on a whole number [ms] of milliseconds, [format_time] prints
    the hours, the minutes within the hour, the seconds within the
    minute and the milliseconds within the second of [ms], each padded
    with zeros to two, two, two and three digits, with a comma before
    the milliseconds. *)
Theorem format_time_millis (ms : Z) :
  0 <= ms ->
  format_time (ms # 1000) =
    zfill 2 (ms / 3600000) +:+ ":" +:+ zfill 2 (ms / 60000 mod 60) +:+ ":" +:+
    pad 2 (pretty (ms / 1000 mod 60)) +:+ "," +:+ pad 3 (pretty (ms mod 1000)).
Proof.
  intros Hms. unfold format_time.
  change 3600%Q with (inject_Z 3600). change 60%Q with (inject_Z 60).
  rewrite (floordiv_millis ms 3600) by lia.
  rewrite (floordiv_comp _ _ (inject_Z 60) (pymod_millis ms 3600 ltac:(lia))).
  rewrite (floordiv_millis _ 60) by lia.
  rewrite (fixed3_comp _ _ (pymod_millis ms 60 ltac:(lia))).
  change (1000 * 3600) with 3600000. change (1000 * 60) with 60000.
  rewrite fixed3_millis by (apply Z.mod_pos_bound; lia).
  rewrite format_time_fields
    by (apply pad_avoids_dot, pretty_Z_avoids_dot).
  replace (ms mod 3600000 / 60000) with (ms / 60000 mod 60)
    by (Z.div_mod_to_equations; lia).
  replace (ms mod 60000 / 1000) with (ms / 1000 mod 60)
    by (Z.div_mod_to_equations; lia).
  replace (ms mod 60000 mod 1000) with (ms mod 1000)
    by (Z.div_mod_to_equations; lia).
  reflexivity.
Qed.

Lemma format_time_millis_witness :
  format_time (3725500 # 1000) =
    zfill 2 (3725500 / 3600000) +:+ ":" +:+ zfill 2 (3725500 / 60000 mod 60) +:+ ":" +:+
    pad 2 (pretty (3725500 / 1000 mod 60)) +:+ "," +:+ pad 3 (pretty (3725500 mod 1000)).
Proof. exact (format_time_millis 3725500 ltac:(discriminate)). Defined.

Lemma pymod_below (t : Q) : (pymod t 60 < 60)%Q.
Proof.
  unfold pymod, floordiv.
  pose proof (Qlt_floor (t / 60)) as Hlt.
  rewrite inject_Z_plus in Hlt.
  assert (Ht : (t == t / 60 * 60)%Q) by field.
  change (inject_Z 1) with 1%Q in Hlt.
  assert (Hmul : (t / 60 * 60 < (inject_Z (Qfloor (t / 60)) + 1) * 60)%Q).
  { apply Qmult_lt_compat_r; [reflexivity | done]. }
  rewrite <- Ht in Hmul. lra.
Qed.

Lemma round_half_even_near_up (x : Q) (z : Z) :
  Z.even z = false ->
  (inject_Z z + (1 # 2) <= x)%Q -> (x < inject_Z (z + 1))%Q ->
  round_half_even x = z + 1.
Proof.
  intros Hodd Hlo Hhi.
  assert (Hfloor : Qfloor x = z).
  { assert (z <= Qfloor x).
    { rewrite <- (Qfloor_Z z). apply Qfloor_resp_le.
      assert (0 <= 1 # 2)%Q by discriminate. lra. }
    assert (Qfloor x < z + 1).
    { rewrite Zlt_Qlt. pose proof (Qfloor_le x). lra. }
    lia. }
  unfold round_half_even. rewrite Hfloor.
  destruct (Qle_bool (x - inject_Z z) (1 # 2)) eqn:Hle; [|reflexivity].
  apply Qle_bool_iff in Hle.
  assert (Heq : (x - inject_Z z == 1 # 2)%Q) by lra.
  apply Qeq_bool_iff in Heq. by rewrite Heq, Hodd.
Qed.

(** X15: [format_time] rounds the seconds after it has split off the
    minutes, and carries nothing: for every time whose seconds within
    the minute are 59.9995 or more, the seconds field reads [60,000]
    while the hours and the minutes are those of the time itself. *)
Theorem format_time_sixty (t : Q) :
  (119999 # 2000 <= pymod t 60)%Q ->
  format_time t =
    zfill 2 (floordiv t 3600) +:+ ":" +:+ zfill 2 (floordiv (pymod t 3600) 60) +:+
    ":60,000".
Proof.
  intros Hlo. unfold format_time.
  assert (Hmillis : round_half_even (pymod t 60 * 1000) = 59999 + 1).
  { apply round_half_even_near_up; [reflexivity| |].
    - change (inject_Z 59999 + (1 # 2))%Q with ((59999 # 1) + (1 # 2))%Q.
      assert (H : ((59999 # 1) + (1 # 2) == (119999 # 2000) * 1000)%Q) by reflexivity.
      rewrite H. apply Qmult_le_compat_r; [done | discriminate].
    - change (inject_Z (59999 + 1)) with (60 * 1000)%Q.
      apply Qmult_lt_compat_r; [reflexivity | apply pymod_below]. }
  unfold fixed3. rewrite Hmillis.
  change (if 59999 + 1 <? 0
          then "-" +:+ (pad 2 (pretty (Z.abs (59999 + 1) / 1000)) +:+ "." +:+
                        pad 3 (pretty (Z.abs (59999 + 1) mod 1000)))
          else pad 2 (pretty (Z.abs (59999 + 1) / 1000)) +:+ "." +:+
               pad 3 (pretty (Z.abs (59999 + 1) mod 1000)))
    with ("60" +:+ "." +:+ "000").
  by rewrite format_time_fields.
Qed.

Lemma format_time_sixty_witness :
  format_time (599996 # 10000) =
    zfill 2 (floordiv (599996 # 10000) 3600) +:+ ":" +:+
    zfill 2 (floordiv (pymod (599996 # 10000) 3600) 60) +:+ ":60,000".
Proof. exact (format_time_sixty (599996 # 10000) ltac:(discriminate)). Defined.


(** ** [escape_path] in [burn_subtitles] *)

(** X16: a path without colon and without backslash, such as the
    temporary paths under [/tmp], goes into the [subtitles=] filter
    unchanged. *)
Theorem escape_path_plain (tmp_srt_path : string) :
  avoids ":" tmp_srt_path = true ->
  avoids "\" tmp_srt_path = true ->
  escape_path tmp_srt_path = tmp_srt_path.
Proof.
  intros Hcolon Hback. unfold escape_path.
  by rewrite (replace_avoids "\" "\\" _ Hback), (replace_avoids ":" "\:" _ Hcolon).
Qed.

Lemma escape_path_plain_witness :
  escape_path "/tmp/tmpk3x9q2ab.srt" = "/tmp/tmpk3x9q2ab.srt".
Proof. exact (escape_path_plain "/tmp/tmpk3x9q2ab.srt" eq_refl eq_refl). Defined.

(** ** The filter graphs on sources of every size *)

Lemma rescale_clip_width (w h : Z) :
  0 < h -> (540 <= Filter.rescale 1920 w (h * 2) <-> 1079 * h <= 1920 * w).
Proof.
  intros Hh. unfold Filter.rescale.
  replace (h * 2 / 2) with h by (symmetry; apply Z.div_mul; lia).
  split.
  - intros Hge. apply Z.nlt_ge. intros Hlt.
    assert ((1920 * w + h) / (h * 2) < 540) by (apply Z.div_lt_upper_bound; lia).
    lia.
  - intros Hge. apply Z.div_le_lower_bound; lia.
Qed.

(** X17: under the documented behaviour of the [scale] and [crop]
    filters, the graph of [create_vertical_clip] gives a frame of
    exactly 1080x1920 on the sources with [1079 * height <= 1920 *
    width], that is, at least as wide as 9:16 up to the rounding of
    the scaled width, and cannot be configured on any narrower
    source. *)
Theorem clip_graph_domain (w h : Z) :
  0 < w -> 0 < h ->
  Filter.apply_graph clip_graph (w, h) =
    if 1079 * h <=? 1920 * w then Some (1080, 1920) else None.
Proof.
  intros Hw Hh.
  change (Filter.apply_graph clip_graph (w, h))
    with (match Filter.apply_filter (Filter.Crop 1080 1920)
                  (Filter.rescale 1920 w (h * 2) * 2, 1920) with
          | Some size' => Some size'
          | None => None
          end).
  pose proof (rescale_clip_width w h Hh) as Hwidth.
  destruct (Z.leb_spec (1079 * h) (1920 * w)) as [Hwide|Hnarrow].
  - rewrite crop_fits; [reflexivity | lia..].
  - unfold Filter.apply_filter.
    replace (1080 <=? Filter.rescale 1920 w (h * 2) * 2) with false
      by (symmetry; apply Z.leb_gt; lia).
    reflexivity.
Qed.

Lemma clip_graph_domain_witness :
  Filter.apply_graph clip_graph (1920, 1080) = Some (1080, 1920) /\
  Filter.apply_graph clip_graph (1080, 2400) = None.
Proof.
  split.
  - exact (clip_graph_domain 1920 1080 eq_refl eq_refl).
  - exact (clip_graph_domain 1080 2400 eq_refl eq_refl).
Defined.

(** X18: under the same reading of the filters, the graph of the
    first command of [generate_thumbnail] gives a frame of exactly
    1080x1920 on a source of any size. *)
Theorem thumb_graph_fills_target (w h : Z) :
  Filter.apply_graph thumb_graph (w, h) = Some (1080, 1920).
Proof. apply thumb_graph_any_source. Qed.


(** ** The quality argument of [download_video] *)

Lemma drop_last_snoc (h : string) (c : ascii) : drop_last (h +:+ String c "") = h.
Proof.
  induction h as [|x h IH]; [reflexivity|].
  change (drop_last (String x (h +:+ String c "")) = String x h).
  cbn [drop_last]. rewrite IH.
  destruct h; reflexivity.
Qed.

(** X19: the height bound that [download_video] hands to [yt-dlp] is
    the quality name without its last character, whatever that
    character is: [1080p] bounds the height by 1080, and [4k], which
    the command line accepts, bounds it by 4. *)
Theorem download_cmd_height_bound (u dir h : string) (c : ascii) :
  download_cmd u dir (h +:+ String c "") !! 2%nat =
    Some (Str ("bestvideo[height<=" +:+ h +:+ "]+bestaudio/best[height<=" +:+ h +:+ "]")).
Proof. unfold download_cmd. rewrite drop_last_snoc. reflexivity. Qed.

(** ** Aborted runs *)

Lemma download_video_none E u dir q s s1 :
  download_video E u dir q s = (Returned None, s1) ->
  s1 = log_run (download_cmd u dir q) false s.
Proof.
  unfold download_video, try_except. unfold bind at 1.
  destruct (yt_dlp E (download_cmd u dir q)) eqn:Hdl.
  - rewrite (run_yt_dlp_Exit0 _ _ _ _ Hdl). unfold bind at 1.
    match goal with |- context [first_existing ?l ?st] =>
      destruct (first_existing_returns l st) as [found Hfirst]; rewrite Hfirst end.
    destruct found as [found|]; [discriminate|].
    unfold listdir, bind, get, ret. cbv beta iota.
    match goal with |- context [filter ?P ?l] => destruct (filter P l) end;
      discriminate.
  - unfold run_yt_dlp. rewrite Hdl.
    unfold bind, modify, raise, except_CalledProcessError, ret. by intros [= <-].
Qed.

(** X20: when [main], from the download on, leaves through
    [sys.exit(1)], the last command that was run is one that failed,
    the download or the encode of the vertical clip: nothing is
    attempted after the failure. *)
Theorem main_stops_at_failure E args ts s s' :
  main_stages E args ts s = (Raised (SystemExit 1), s') ->
  last (ran s') =
    Some (download_cmd (url args) (output_dir args) (quality_arg args), false) \/
  exists video_path start_time d,
    last (ran s') =
      Some (clip_cmd video_path (vertical_path_of args ts) start_time d, false).
Proof.
  intros Hmain. pose proof (main_stages_run E args ts s) as Hstages.
  destruct (download_video E _ _ _ s) as [[[video_path|]|e] s1] eqn:Hdl.
  - destruct Hstages as (start_time & d & s2 & clipped & s3 & Hd & Hclip & Hstages).
    rewrite Hstages in Hmain. destruct clipped.
    + destruct (main_after_clip_returns E args ts
                  (path_join (output_dir args) ("vertical_" +:+ ts +:+ ".mp4"))
                  start_time d s3) as [s4 Hafter].
      rewrite Hafter in Hmain. discriminate.
    + injection Hmain as <-. right. exists video_path, start_time, d.
      destruct (create_vertical_clip_runs E video_path
                  (path_join (output_dir args) ("vertical_" +:+ ts +:+ ".mp4"))
                  start_time d s2) as (b & s3' & Hrun & Hsince).
      rewrite Hclip in Hrun. injection Hrun as <- <-.
      unfold runs_since in Hsince.
      rewrite <- (take_drop (length (ran s2)) (ran s3)), Hsince.
      by rewrite last_app.
  - rewrite Hstages in Hmain. injection Hmain as <-.
    left. rewrite (download_video_none _ _ _ _ _ _ Hdl).
    cbn [ran log_run]. by rewrite last_snoc.
  - rewrite Hstages in Hmain. injection Hmain as -> _.
    destruct (download_video_raises _ _ _ _ _ _ _ Hdl) as [msg Hmsg]. discriminate.
Qed.

Lemma main_stops_at_failure_witness :
  last (ran (snd (main_stages failing_env sample_args "20260101_120000" fresh_sys))) =
    Some (download_cmd (url sample_args) (output_dir sample_args)
            (quality_arg sample_args), false) \/
  exists video_path start_time d,
    last (ran (snd (main_stages failing_env sample_args "20260101_120000" fresh_sys))) =
      Some (clip_cmd video_path (vertical_path_of sample_args "20260101_120000")
              start_time d, false).
Proof.
  exact (main_stops_at_failure failing_env sample_args "20260101_120000" fresh_sys
           _ eq_refl).
Defined.


(** ** [create_vertical_clip] *)

(** X21: [create_vertical_clip] returns [True] exactly when the encode
    exits with 0, whatever the size probe did; the file at the output
    path is then the complete output of that encode; and no other
    file, the input among them, is changed, whether the encode
    completes or fails. *)
Theorem create_vertical_clip_effect E input_path output_path start_time d s :
  exists b s',
    create_vertical_clip E input_path output_path start_time d s = (Returned b, s') /\
    (b = true <-> ffmpeg E (clip_cmd input_path output_path start_time d) = Exit0) /\
    (b = true ->
     fs s' !! output_path =
       Some (Media (clip_cmd input_path output_path start_time d) true)) /\
    (forall p, p ≠ output_path -> fs s' !! p = fs s !! p).
Proof.
  unfold create_vertical_clip, run_ffmpeg, leftover, write_file.
  py_unfold.
  destruct (ffprobe_size E _) as [[w h]| |]; cbn;
    (destruct (ffmpeg E _); cbn;
     [| destruct (ffmpeg_partial E _); cbn]);
    do 2 eexists; (split; [reflexivity|]); cbn;
    (split; [split; intros; (reflexivity || discriminate)|]);
    (split;
     [ intros; (discriminate || apply lookup_insert_eq)
     | intros p Hp; rewrite ?lookup_insert_ne; done ]).
Qed.
